(** * Error mapping and response shaping of the three downloader services

    The repository holds three independent FastAPI services:
    - [api_youtube.py]  (yt-dlp):  /api/video-info and /api/download-link;
    - [flsfls;fs.py]    (pytube):  /api/video-info and /api/download-link;
    - [check.py]        (rutube):  /api/video_info.

    The extraction libraries are black boxes.  Each service is embedded as
    a function in a state-and-exception monad; the library is an interface
    whose every behaviour is quantified over, and every call to it is
    recorded in the state. *)

From Stdlib Require Import ZArith QArith Ascii String List.
From stdpp Require Import base option list strings pretty gmap.

Local Open Scope Z_scope.
Set Warnings "-register-all".
Set Default Proof Using "Type".

(** ** Python values and exceptions *)

Module Py.

(** A Python [float]: a finite binary64 number is a rational; the
    non-finite ones are kept apart because [int()] rejects them. *)
Inductive pyfloat : Type :=
| FFinite (q : Q)
| FInf (negative : bool)
| FNan.

(** The values a library hands back ([Dict[str, Any]] built from JSON). *)
Inductive pyval : Type :=
| VNone
| VBool (b : bool)
| VInt (z : Z)
| VFloat (f : pyfloat)
| VStr (s : string)
| VList (l : list pyval)
| VDict (d : gmap string pyval).

(** The exceptions that occur.  [HTTPException] is FastAPI's, and like
    every other one here it derives from [Exception]. *)
Inductive exn : Type :=
| HTTPException (status_code : Z) (detail : string)
| DownloadError (msg : string)
| LibraryError (msg : string)
| TypeError
| AttributeError
| KeyError
| ValueError
| OverflowError
| ValidationError.

Inductive outcome (A : Type) : Type :=
| Returns (a : A)
| Raises (e : exn).
Arguments Returns {A} a.
Arguments Raises {A} e.

(** [isinstance(e, HTTPException)] *)
Definition is_http (e : exn) : bool :=
  match e with HTTPException _ _ => true | _ => false end.

(** *** The state-and-exception monad

    [S] is the part of the world the service touches: the record of the
    library calls made so far, and for the rutube service the files. *)
Definition M (S A : Type) : Type := S → outcome A * S.

Global Instance outcome_ret : MRet outcome := λ A a, Returns a.
Global Instance outcome_bind : MBind outcome := λ A B k o,
  match o with
  | Returns a => k a
  | Raises e => Raises e
  end.

Global Instance M_ret {S} : MRet (M S) := λ A a s, (Returns a, s).
Global Instance M_bind {S} : MBind (M S) := λ A B k m s,
  match m s with
  | (Returns a, s') => k a s'
  | (Raises e, s') => (Raises e, s')
  end.

Definition raise {S A} (e : exn) : M S A := λ s, (Raises e, s).
(** [try: m except Exception as e: h e] *)
Definition try_except {S A} (m : M S A) (h : exn → M S A) : M S A :=
  λ s, match m s with
       | (Returns a, s') => (Returns a, s')
       | (Raises e, s') => h e s'
       end.
(** An expression that may raise but does not touch the state. *)
Definition lift {S A} (o : outcome A) : M S A := λ s, (o, s).
Definition modify {S} (f : S → S) : M S unit := λ s, (Returns tt, f s).

(** *** Operations of the language on values *)

(** [bool(v)] *)
Definition truthy (v : pyval) : bool :=
  match v with
  | VNone => false
  | VBool b => b
  | VInt z => negb (Z.eqb z 0)
  | VFloat (FFinite q) => negb (Z.eqb (Qnum q) 0)
  | VFloat _ => true
  | VStr s => negb (String.eqb s "")
  | VList l => match l with [] => false | _ => true end
  | VDict d => negb (bool_decide (d = ∅))
  end.

(** [v == s] for a [str] [s]: only an equal [str] compares equal. *)
Definition eq_str (v : pyval) (s : string) : bool :=
  match v with VStr t => String.eqb t s | _ => false end.

(** [v.get(k, default)]: only a dict has the method. *)
Definition get (v : pyval) (k : string) (default : pyval) : outcome pyval :=
  match v with
  | VDict d => Returns (from_option id default (d !! k))
  | _ => Raises AttributeError
  end.

(** [v[k]] for a [str] key. *)
Definition getitem (v : pyval) (k : string) : outcome pyval :=
  match v with
  | VDict d => match d !! k with Some x => Returns x | None => Raises KeyError end
  | _ => Raises TypeError
  end.

Fixpoint is_prefix (p s : string) : bool :=
  match p, s with
  | EmptyString, _ => true
  | String a p', String b s' => Ascii.eqb a b && is_prefix p' s'
  | String _ _, EmptyString => false
  end.

(** [p in s] for two strings *)
Fixpoint substring_of (p s : string) : bool :=
  is_prefix p s ||
  match s with
  | EmptyString => false
  | String _ s' => substring_of p s'
  end.

(** [k in v] for a [str] [k]: key of a dict, element of a list,
    substring of a string; the other values are not containers. *)
Definition contains (k : string) (v : pyval) : outcome bool :=
  match v with
  | VDict d => Returns (bool_decide (is_Some (d !! k)))
  | VList l => Returns (existsb (fun x => eq_str x k) l)
  | VStr s => Returns (substring_of k s)
  | _ => Raises TypeError
  end.

Fixpoint chars (s : string) : list pyval :=
  match s with
  | EmptyString => []
  | String a s' => VStr (String a EmptyString) :: chars s'
  end.

(** [for x in v]: the elements of a list, the keys of a dict, the
    characters of a string (here its bytes; every loop of the services
    calls [x.get] first, which no string has, so only the emptiness of
    the string is observable). *)
Definition iter (v : pyval) : outcome (list pyval) :=
  match v with
  | VList l => Returns l
  | VDict d => Returns (VStr <$> (map_to_list d).*1)
  | VStr s => Returns (chars s)
  | _ => Raises TypeError
  end.

(** [v[:100]] inside a log message: only whether it raises matters.  A
    dict raises too ([TypeError] before Python 3.12, [KeyError] since). *)
Definition slice_prefix (v : pyval) : outcome unit :=
  match v with
  | VStr _ | VList _ => Returns tt
  | _ => Raises TypeError
  end.

(** [s.replace(' ', '_')] *)
Fixpoint replace_spaces (s : string) : string :=
  match s with
  | EmptyString => EmptyString
  | String a s' =>
      String (if Ascii.eqb a " "%char then "_"%char else a) (replace_spaces s')
  end.

(** What the interpreter and pydantic decide and the services rely on:
    how a value prints in an f-string, how an exception prints, which
    strings [int()] parses, and which values a model field of type
    [str], [int] or [float] accepts.  Only what holds for every version
    of either is required: a value of the field's own type is accepted
    as it is, and a [str] prints as itself. *)
Class Runtime : Type := {
  str_of : pyval → string;
  exn_str : exn → string;
  int_of_str : string → option Z;
  field_str : pyval → option string;
  field_int : pyval → option Z;
  field_float : pyval → option pyfloat;
  str_of_str : ∀ s, str_of (VStr s) = s;
  field_str_str : ∀ s, field_str (VStr s) = Some s;
  field_int_int : ∀ z, field_int (VInt z) = Some z;
  field_float_float : ∀ f, field_float (VFloat f) = Some f;
}.

Section Builtins.
Context `{Runtime}.

(** [int(v)] *)
Definition int (v : pyval) : outcome Z :=
  match v with
  | VInt z => Returns z
  | VBool b => Returns (if b then 1 else 0)
  | VFloat (FFinite q) => Returns (Z.quot (Qnum q) (Z.pos (Qden q)))
  | VFloat (FInf _) => Raises OverflowError
  | VFloat FNan => Raises ValueError
  | VStr s => match int_of_str s with Some z => Returns z | None => Raises ValueError end
  | _ => Raises TypeError
  end.

(** A model field [T]: a rejected value raises pydantic's error. *)
Definition required {A} (field : pyval → option A) (v : pyval) : outcome A :=
  match field v with Some a => Returns a | None => Raises ValidationError end.

(** A model field [Optional[T]]: [None] is accepted as it is. *)
Definition optional {A} (field : pyval → option A) (v : pyval) : outcome (option A) :=
  match v with
  | VNone => Returns None
  | _ => match field v with Some a => Returns (Some a) | None => Raises ValidationError end
  end.

End Builtins.

(** *** What the client sees

    FastAPI turns a returned body into a 200 response and a raised
    [HTTPException] into a response with its status code and detail.  Any
    other exception leaves the handler unhandled. *)
Inductive response (B : Type) : Type :=
| Ok200 (body : B)
| HttpError (status_code : Z) (detail : string)
| Unhandled (e : exn).
Arguments Ok200 {B} body.
Arguments HttpError {B} status_code detail.
Arguments Unhandled {B} e.

Definition respond {B} (o : outcome B) : response B :=
  match o with
  | Returns b => Ok200 b
  | Raises (HTTPException c d) => HttpError c d
  | Raises e => Unhandled e
  end.

Definition status {B} (r : response B) : option Z :=
  match r with
  | Ok200 _ => Some 200
  | HttpError c _ => Some c
  | Unhandled _ => None
  end.

End Py.


(** ** The yt-dlp service, [api_youtube.py] *)

Module YtDlp.
Import Py.

(** The option dict given to [yt_dlp.YoutubeDL]; a key that one of the two
    dicts of the source does not set is [None] here. *)
Record ydl_opts : Type := {
  quiet : bool;
  no_warnings : bool;
  extract_flat : option string;
  format : option string;
  dumpjson : bool;
  skip_download : bool;
  forcejson : bool;
  socket_timeout : Z;
  cookiefile : option string;
}.

(** The library: [YoutubeDL(opts).extract_info(url, download=False)] and
    [ydl.prepare_filename(info, outtmpl='%(title)s.%(ext)s')]. *)
Class YoutubeDL : Type := {
  extract_info : ydl_opts → string → outcome pyval;
  prepare_filename : ydl_opts → pyval → outcome string;
}.

(** The calls made to the library, oldest first. *)
Inductive call : Type :=
| ExtractInfo (opts : ydl_opts) (url : string)
| PrepareFilename (opts : ydl_opts) (info : pyval).

(** The pydantic models. *)
Record VideoFormatInfo : Type := {
  itag : string;
  resolution : option string;
  vcodec : option string;
  acodec : option string;
  ext : string;
  filesize : option Z;
  format_note : option string;
  fps : option Z;
  abr : option pyfloat;
  tbr : option pyfloat;
}.

Record VideoDetails : Type := {
  title : string;
  thumbnail_url : string;
  duration : Z;
  uploader : option string;
  description : option string;
  available_formats : list VideoFormatInfo;
}.

Record DownloadResponse : Type := {
  message : string;
  direct_download_url : option string;
  filename : option string;
}.

Section Service.
Context `{Runtime} `{YoutubeDL}.
(** [COOKIES_FILE_PATH] and [os.path.exists(COOKIES_FILE_PATH)] *)
Variable COOKIES_FILE_PATH : string.
Variable cookies_exist : bool.

Definition call_extract_info (opts : ydl_opts) (url : string) : M (list call) pyval :=
  modify (λ cs, cs ++ [ExtractInfo opts url]);;
  lift (extract_info opts url).

Definition call_prepare_filename (opts : ydl_opts) (info : pyval) : M (list call) string :=
  modify (λ cs, cs ++ [PrepareFilename opts info]);;
  lift (prepare_filename opts info).

Definition ydl_opts_info : ydl_opts := {|
  quiet := true;
  no_warnings := true;
  extract_flat := Some "discard_in_playlist";
  format := None;
  dumpjson := false;
  skip_download := true;
  forcejson := false;
  socket_timeout := 60;
  cookiefile := if cookies_exist then Some COOKIES_FILE_PATH else None;
|}.

Definition ydl_opts_download (format_itag : string) : ydl_opts := {|
  quiet := true;
  no_warnings := true;
  extract_flat := None;
  format := Some format_itag;
  dumpjson := false;
  skip_download := true;
  forcejson := false;
  socket_timeout := 60;
  cookiefile := if cookies_exist then Some COOKIES_FILE_PATH else None;
|}.

(** Lines 103-109, the [try] suite.  The log message after the call
    formats [info_dict.get('title')]. *)
Definition fetch_video_info_try (video_url : string) : M (list call) pyval :=
  info_dict ← call_extract_info ydl_opts_info video_url;
  lift (get info_dict "title" VNone);;
  mret info_dict.

(** Lines 78-117 *)
Definition fetch_video_info_blocking (video_url : string) : M (list call) pyval :=
  try_except (fetch_video_info_try video_url)
    (λ e, match e with
          | DownloadError _ =>
              raise (HTTPException 500
                ("Ошибка при получении информации от YouTube: " +:+ exn_str e))
          | _ =>
              raise (HTTPException 500
                ("Непредвиденная ошибка сервера при обработке URL: " +:+ exn_str e))
          end).

(** The test of line 154, [f.get('format_id') == format_itag], as a
    predicate on entries: an entry without the method does not pass. *)
Definition has_format_id (format_itag : string) (f : pyval) : bool :=
  match get f "format_id" VNone with
  | Returns id => eq_str id format_itag
  | Raises _ => false
  end.

(** Lines 153-156: the loop with its [break]; [VNone] when it runs out. *)
Fixpoint find_format (formats : list pyval) (format_itag : string) : outcome pyval :=
  match formats with
  | [] => Returns VNone
  | f :: rest =>
      id ← get f "format_id" VNone;
      if eq_str id format_itag then Returns f else find_format rest format_itag
  end.

(** Lines 151-161: the format that is selected. *)
Definition select_format (info : pyval) (format_itag : string) : outcome pyval :=
  has_formats ← contains "formats" info;
  selected_format_info ←
    (if has_formats : bool then
       formats ← getitem info "formats";
       fs ← iter formats;
       find_format fs format_itag
     else Returns VNone);
  if negb (truthy selected_format_info) then
    id ← get info "format_id" VNone;
    if eq_str id format_itag then Returns info else Returns selected_format_info
  else Returns selected_format_info.

(** Lines 169-170 *)
Definition fallback_filename (info selected_format_info : pyval) : outcome string :=
  t ← get info "title" (VStr "video");
  e ← get selected_format_info "ext" (VStr "mp4");
  Returns (str_of t +:+ "." +:+ str_of e).

Definition detail_404_link (format_itag : string) : string :=
  "Не удалось получить ссылку на скачивание для формата " +:+ format_itag +:+
  ". Возможно, формат не доступен или требует дополнительной обработки.".

(** Lines 144-179, the [try] suite.  The result is the dict
    [{"url": ..., "filename": ...}]. *)
Definition get_download_link_blocking_try (video_url format_itag : string)
  : M (list call) pyval :=
  let opts := ydl_opts_download format_itag in
  info ← call_extract_info opts video_url;
  selected_format_info ← lift (select_format info format_itag);
  has_url ← (if truthy selected_format_info
             then lift (contains "url" selected_format_info)
             else mret false);
  if has_url : bool then
    download_url ← lift (getitem selected_format_info "url");
    templated ← call_prepare_filename opts info;
    filename ← (if negb (substring_of "." templated)
                then lift (fallback_filename info selected_format_info)
                else mret templated);
    lift (slice_prefix download_url);;
    mret (VDict (<["url" := download_url]> (<["filename" := VStr filename]> ∅)))
  else
    raise (HTTPException 404 (detail_404_link format_itag)).

(** Lines 120-188 *)
Definition get_download_link_blocking (video_url format_itag : string)
  : M (list call) pyval :=
  try_except (get_download_link_blocking_try video_url format_itag)
    (λ e, match e with
          | DownloadError _ =>
              raise (HTTPException 500
                ("Ошибка yt-dlp при получении ссылки на скачивание: " +:+ exn_str e))
          | _ =>
              raise (HTTPException 500
                ("Непредвиденная ошибка сервера при получении ссылки: " +:+ exn_str e))
          end).

(** Lines 217-218: [f_data.get('width') and f_data.get('height') and
    f"{f_data['width']}x{f_data['height']}"] *)
Definition default_resolution (f_data : pyval) : outcome pyval :=
  w ← get f_data "width" VNone;
  if truthy w then
    h ← get f_data "height" VNone;
    if truthy h then
      w' ← getitem f_data "width";
      h' ← getitem f_data "height";
      Returns (VStr (str_of w' +:+ "x" +:+ str_of h'))
    else Returns h
  else Returns w.

(** Line 222: [f_data.get('filesize') or f_data.get('filesize_approx')] *)
Definition filesize_or_approx (f_data : pyval) : outcome pyval :=
  size ← get f_data "filesize" VNone;
  if truthy size then Returns size else get f_data "filesize_approx" VNone.

(** Lines 215-227: one [VideoFormatInfo(...)] of the loop.  The default of
    [resolution] is an argument, so it is evaluated whether used or not. *)
Definition shape_format (f_data : pyval) : outcome VideoFormatInfo :=
  v_itag ← get f_data "format_id" (VStr "N/A");
  dflt ← default_resolution f_data;
  v_resolution ← get f_data "resolution" dflt;
  v_vcodec ← get f_data "vcodec" VNone;
  v_acodec ← get f_data "acodec" VNone;
  v_ext ← get f_data "ext" (VStr "N/A");
  v_filesize ← filesize_or_approx f_data;
  v_format_note ← get f_data "format_note" VNone;
  v_fps ← get f_data "fps" VNone;
  v_abr ← get f_data "abr" VNone;
  v_tbr ← get f_data "tbr" VNone;
  itag ← required field_str v_itag;
  resolution ← optional field_str v_resolution;
  vcodec ← optional field_str v_vcodec;
  acodec ← optional field_str v_acodec;
  ext ← required field_str v_ext;
  filesize ← optional field_int v_filesize;
  format_note ← optional field_str v_format_note;
  fps ← optional field_int v_fps;
  abr ← optional field_float v_abr;
  tbr ← optional field_float v_tbr;
  Returns {| itag := itag; resolution := resolution; vcodec := vcodec;
             acodec := acodec; ext := ext; filesize := filesize;
             format_note := format_note; fps := fps; abr := abr; tbr := tbr |}.

(** Lines 208-227: [formats_info.append(...)] for each entry, in order. *)
Fixpoint shape_formats (formats : list pyval) : outcome (list VideoFormatInfo) :=
  match formats with
  | [] => Returns []
  | f_data :: rest =>
      x ← shape_format f_data;
      xs ← shape_formats rest;
      Returns (x :: xs)
  end.

(** Lines 238-245 *)
Definition shape_details (info_dict : pyval) (formats_info : list VideoFormatInfo)
  : outcome VideoDetails :=
  v_title ← get info_dict "title" (VStr "Без названия");
  v_thumbnail ← get info_dict "thumbnail" (VStr "");
  v_duration ← get info_dict "duration" (VInt 0);
  seconds ← int v_duration;
  v_uploader ← get info_dict "uploader" VNone;
  v_description ← get info_dict "description" VNone;
  title ← required field_str v_title;
  thumbnail_url ← required field_str v_thumbnail;
  duration ← required field_int (VInt seconds);
  uploader ← optional field_str v_uploader;
  description ← optional field_str v_description;
  Returns {| title := title; thumbnail_url := thumbnail_url; duration := duration;
             uploader := uploader; description := description;
             available_formats := formats_info |}.

(** *** Library results whose fields are missing or of the expected type *)

(** The key is absent, or holds a value that [accept] accepts. *)
Definition absent_or (accept : pyval → bool) (d : gmap string pyval) (k : string) : bool :=
  match d !! k with
  | None => true
  | Some v => accept v
  end.

Definition is_str (v : pyval) : bool :=
  match v with VStr _ => true | _ => false end.
Definition is_opt_str (v : pyval) : bool :=
  match v with VStr _ | VNone => true | _ => false end.
Definition is_opt_int (v : pyval) : bool :=
  match v with VInt _ | VNone => true | _ => false end.
Definition is_opt_float (v : pyval) : bool :=
  match v with VFloat _ | VNone => true | _ => false end.
(** A width or height: [None] or a positive number of pixels. *)
Definition is_dimension (v : pyval) : bool :=
  match v with VNone => true | VInt z => Z.ltb 0 z | _ => false end.
(** A duration: a number of seconds, whole or not. *)
Definition is_seconds (v : pyval) : bool :=
  match v with VInt _ | VFloat (FFinite _) => true | _ => false end.

(** An entry of ['formats'] every field of which is missing or typed as
    [VideoFormatInfo] types it. *)
Definition well_typed_format (d : gmap string pyval) : bool :=
  absent_or is_str d "format_id" && absent_or is_dimension d "width" &&
  absent_or is_dimension d "height" && absent_or is_opt_str d "resolution" &&
  absent_or is_opt_str d "vcodec" && absent_or is_opt_str d "acodec" &&
  absent_or is_str d "ext" && absent_or is_opt_int d "filesize" &&
  absent_or is_opt_int d "filesize_approx" && absent_or is_opt_str d "format_note" &&
  absent_or is_opt_int d "fps" && absent_or is_opt_float d "abr" &&
  absent_or is_opt_float d "tbr".

(** A library result every field of which is missing or typed as
    [VideoDetails] types it. *)
Definition well_typed_info (d : gmap string pyval) : bool :=
  absent_or is_str d "title" && absent_or is_str d "thumbnail" &&
  absent_or is_seconds d "duration" && absent_or is_opt_str d "uploader" &&
  absent_or is_opt_str d "description".

(** Lines 232-234: a condition that is evaluated and whose branch is [pass]. *)
Definition check_youtube_type (info_dict : pyval) : outcome unit :=
  has_type ← contains "_type" info_dict;
  if has_type : bool then
    t ← getitem info_dict "_type";
    if eq_str t "youtube" then
      get info_dict "entries" VNone;; Returns tt
    else Returns tt
  else Returns tt.

Definition detail_404_formats : string :=
  "Не удалось извлечь доступные форматы для этого видео. Возможно, видео недоступно или защищено.".

(** Lines 206-227: the list [formats_info]. *)
Definition shape_info_formats (info_dict : pyval) : outcome (list VideoFormatInfo) :=
  has_formats ← (if truthy info_dict then contains "formats" info_dict
                 else Returns false);
  if has_formats : bool then
    formats ← getitem info_dict "formats";
    fs ← iter formats;
    shape_formats fs
  else Returns [].

(** Lines 206-245: what the endpoint makes of the library result. *)
Definition shape_video_information (info_dict : pyval) : outcome VideoDetails :=
  formats_info ← shape_info_formats info_dict;
  match formats_info with
  | [] =>
      check_youtube_type info_dict;;
      Raises (HTTPException 404 detail_404_formats)
  | _ => shape_details info_dict formats_info
  end.

(** What the two [except] clauses of an endpoint raise for an exception
    of the [try] suite: [except HTTPException as httpe: raise httpe], then
    [except Exception as e: raise HTTPException(status_code=500, ...)]. *)
Definition endpoint_handler (prefix : string) (e : exn) : exn :=
  match e with
  | HTTPException _ _ => e
  | _ => HTTPException 500 (prefix +:+ exn_str e)
  end.

(** Lines 204-245, the [try] suite of the endpoint. *)
Definition get_video_information_try (url : string) : M (list call) VideoDetails :=
  info_dict ← fetch_video_info_blocking url;
  lift (shape_video_information info_dict).

(** Lines 193-250, [GET /api/video-info]. *)
Definition get_video_information (url : string) : M (list call) VideoDetails :=
  if negb (truthy (VStr url)) then
    raise (HTTPException 400 "Параметр 'url' не может быть пустым.")
  else
    try_except (get_video_information_try url)
      (λ e, match e with
            | HTTPException _ _ => raise e
            | _ =>
                raise (HTTPException 500
                  ("Внутренняя ошибка сервера при обработке вашего запроса: " +:+ exn_str e))
            end).

(** Lines 266-282: what the endpoint makes of the adapter's result. *)
Definition shape_download_response (result : pyval) : outcome DownloadResponse :=
  has_url ← (if truthy result then contains "url" result else Returns false);
  has_filename ← (if has_url : bool then contains "filename" result
                  else Returns false);
  if has_filename : bool then
    u ← getitem result "url";
    slice_prefix u;;
    fn ← getitem result "filename";
    direct_download_url ← optional field_str u;
    filename ← optional field_str fn;
    Returns {| message := "Ссылка на скачивание успешно получена.";
               direct_download_url := direct_download_url;
               filename := filename |}
  else
    Raises (HTTPException 500
      "Не удалось получить корректную ссылку на скачивание от обработчика.").

(** Lines 265-282, the [try] suite of the endpoint. *)
Definition get_download_link_try (url itag : string) : M (list call) DownloadResponse :=
  result ← get_download_link_blocking url itag;
  lift (shape_download_response result).

(** Lines 253-290, [GET /api/download-link]. *)
Definition get_download_link (url itag : string) : M (list call) DownloadResponse :=
  if negb (truthy (VStr url)) || negb (truthy (VStr itag)) then
    raise (HTTPException 400 "Параметры 'url' и 'itag' обязательны.")
  else
    try_except (get_download_link_try url itag)
      (λ e, match e with
            | HTTPException _ _ => raise e
            | _ =>
                raise (HTTPException 500
                  ("Внутренняя ошибка сервера при получении ссылки на скачивание: "
                   +:+ exn_str e))
            end).

End Service.
End YtDlp.

(** ** The pytube service, [flsfls;fs.py] *)

Module Pytube.
Import Py.

(** A [pytube.Stream].  [filesize] is a property that asks the network. *)
Module Stream.
Record t : Type := {
  itag : Z;
  resolution : option string;
  mime_type : string;
  filesize : outcome Z;
  abr : option string;
  subtype : string;
  url : string;
}.
End Stream.

(** A [pytube.YouTube] object: the properties the service reads. *)
Module YouTube.
Record t : Type := {
  streams : outcome (list Stream.t);
  title : outcome string;
  thumbnail_url : outcome string;
  length : outcome Z;
}.
End YouTube.

(** The library: the constructor [YouTube(url)] and the methods of
    [StreamQuery] the service chains. *)
Class PytubeLib : Type := {
  YouTube_new : string → outcome YouTube.t;
  filter_progressive_mp4 : list Stream.t → outcome (list Stream.t);
  order_by_resolution : list Stream.t → outcome (list Stream.t);
  desc : list Stream.t → outcome (list Stream.t);
  get_by_itag : list Stream.t → Z → outcome (option Stream.t);
}.

Record VideoFormatInfo : Type := {
  itag : string;
  resolution : option string;
  mime_type : option string;
  filesize : Z;
  abr : option string;
}.

Record VideoDetails : Type := {
  title : string;
  thumbnail_url : string;
  duration : Z;
  available_formats : list VideoFormatInfo;
}.

Record DownloadLink : Type := {
  download_url : string;
  filename : string;
}.

Section Service.
Context `{Runtime} `{PytubeLib}.

(** The state is the list of URLs [YouTube(...)] was built for. *)
Definition call_YouTube (url : string) : M (list string) YouTube.t :=
  modify (λ cs, cs ++ [url]);;
  lift (YouTube_new url).

(** Line 68: [yt.streams.filter(progressive=True,
    file_extension='mp4').order_by('resolution').desc()] *)
Definition progressive_mp4_streams (yt : YouTube.t) : outcome (list Stream.t) :=
  all ← YouTube.streams yt;
  progressive ← filter_progressive_mp4 all;
  ordered ← order_by_resolution progressive;
  desc ordered.

(** Lines 69-75 *)
Definition shape_stream (stream : Stream.t) : outcome VideoFormatInfo :=
  size ← Stream.filesize stream;
  Returns {| itag := str_of (VInt (Stream.itag stream));
             resolution := Stream.resolution stream;
             mime_type := Some (Stream.mime_type stream);
             filesize := size;
             abr := Stream.abr stream |}.

Fixpoint shape_streams (l : list Stream.t) : outcome (list VideoFormatInfo) :=
  match l with
  | [] => Returns []
  | stream :: rest =>
      x ← shape_stream stream;
      xs ← shape_streams rest;
      Returns (x :: xs)
  end.

Definition detail_404_formats : string :=
  "Подходящие форматы MP4 не найдены для этого видео.".

(** Lines 65-88: what the endpoint makes of the [YouTube] object. *)
Definition shape_video_information (yt : YouTube.t) : outcome VideoDetails :=
  selected ← progressive_mp4_streams yt;
  formats_info ← shape_streams selected;
  match formats_info with
  | [] => Raises (HTTPException 404 detail_404_formats)
  | _ =>
      title ← YouTube.title yt;
      thumbnail_url ← YouTube.thumbnail_url yt;
      duration ← YouTube.length yt;
      Returns {| title := title; thumbnail_url := thumbnail_url;
                 duration := duration; available_formats := formats_info |}
  end.

(** Lines 63-88, the [try] suite of the endpoint. *)
Definition get_video_information_try (url : string) : M (list string) VideoDetails :=
  yt ← call_YouTube url;
  lift (shape_video_information yt).

(** Lines 54-92, [GET /api/video-info]. *)
Definition get_video_information (url : string) : M (list string) VideoDetails :=
  if negb (truthy (VStr url)) then
    raise (HTTPException 400 "URL параметр не может быть пустым.")
  else
    try_except (get_video_information_try url)
      (λ e, raise (HTTPException 500
                     ("Ошибка сервера при обработке URL: " +:+ exn_str e))).

(** [f"{x}"] for an [Optional[str]] *)
Definition format_optional (o : option string) : string :=
  match o with Some s => s | None => "None" end.

(** [stream.resolution or stream.abr] *)
Definition resolution_or_abr (stream : Stream.t) : option string :=
  match Stream.resolution stream with
  | Some r => if truthy (VStr r) then Some r else Stream.abr stream
  | None => Stream.abr stream
  end.

Definition detail_404_itag (itag : string) : string :=
  "Формат с itag '" +:+ itag +:+ "' не найден для этого видео.".

(** Lines 104-113: what the endpoint makes of the [YouTube] object. *)
Definition shape_download_link (yt : YouTube.t) (itag : string) : outcome DownloadLink :=
  all ← YouTube.streams yt;
  i ← int (VStr itag);
  found ← get_by_itag all i;
  match found with
  | None => Raises (HTTPException 404 (detail_404_itag itag))
  | Some stream =>
      title ← YouTube.title yt;
      Returns {| download_url := Stream.url stream;
                 filename := replace_spaces title +:+ "_" +:+
                             format_optional (resolution_or_abr stream) +:+ "." +:+
                             Stream.subtype stream |}
  end.

(** Lines 103-113, the [try] suite of the endpoint. *)
Definition get_download_link_try (url itag : string) : M (list string) DownloadLink :=
  yt ← call_YouTube url;
  lift (shape_download_link yt itag).

(** Lines 95-116, [GET /api/download-link]. *)
Definition get_download_link (url itag : string) : M (list string) DownloadLink :=
  if negb (truthy (VStr url)) || negb (truthy (VStr itag)) then
    raise (HTTPException 400 "Параметры 'url' и 'itag' не могут быть пустыми.")
  else
    try_except (get_download_link_try url itag)
      (λ e, raise (HTTPException 500
                     ("Ошибка сервера при получении ссылки: " +:+ exn_str e))).

End Service.
End Pytube.

(** ** The rutube service, [check.py] *)

Module Rutube.
Import Py.

(** What [get_best()] returns: [download(stream=f)] writes [written] to
    [f] and then raises [failure], if any. *)
Record video : Type := {
  written : list Byte.byte;
  failure : option exn;
}.

(** The library: [Rutube(video_url)] and then [get_best()], which is
    [None] for an empty playlist. *)
Class RutubeLib : Type := {
  Rutube_new : string → outcome (outcome (option video));
}.

(** The files of the working directory, and the URLs given to the library. *)
Record world : Type := {
  files : gmap string (list Byte.byte);
  calls : list string;
}.

Record FileResponse : Type := {
  path : string;
  filename : string;
  media_type : string;
}.

Section Service.
Context `{RutubeLib}.

Definition call_Rutube (video_url : string) : M world (outcome (option video)) :=
  modify (λ w, {| files := files w; calls := calls w ++ [video_url] |});;
  lift (Rutube_new video_url).

(** [open(name, 'wb')]: the file is created, or emptied when it exists. *)
Definition open_wb (name : string) : M world unit :=
  modify (λ w, {| files := <[name := []]> (files w); calls := calls w |}).

(** [f.write(data)] on the file opened as [name] *)
Definition write (name : string) (data : list Byte.byte) : M world unit :=
  modify (λ w, {| files := <[name := default [] (files w !! name) ++ data]> (files w);
                  calls := calls w |}).

(** Lines 19-25, [GET /api/video_info]. *)
Definition get_video_info (video_url : string) : M world FileResponse :=
  rt_client ← call_Rutube video_url;
  open_wb "video.mp4";;
  best ← lift rt_client;
  match best with
  | None => raise AttributeError
  | Some v =>
      write "video.mp4" (written v);;
      match failure v with
      | Some e => raise e
      | None =>
          mret {| path := "video.mp4"; filename := "video.mp4";
                  media_type := "video/mp4" |}
      end
  end.

End Service.

(** What the framework sends for a [FileResponse]: the content the file
    at [path] has when the response goes out, after the handler returned. *)
Definition serve (r : FileResponse) (w : world) : option (list Byte.byte) :=
  files w !! path r.

End Rutube.

(** ** A concrete runtime and concrete libraries

    One runtime that meets the interface, and one library per service,
    on which the services can be run. *)

Module Sample.
Import Py.

Definition is_digit (a : ascii) : bool :=
  let n := N_of_ascii a in (48 <=? n)%N && (n <=? 57)%N.

Fixpoint digits_value (s : string) (acc : Z) : option Z :=
  match s with
  | EmptyString => Some acc
  | String a rest =>
      if is_digit a
      then digits_value rest (10 * acc + (Z.of_N (N_of_ascii a) - 48))
      else None
  end.

(** An optional sign followed by at least one ASCII digit. *)
Definition parse_int (s : string) : option Z :=
  match s with
  | EmptyString => None
  | String a rest =>
      if Ascii.eqb a "-"%char then
        (if String.eqb rest "" then None else Z.opp <$> digits_value rest 0)
      else if Ascii.eqb a "+"%char then
        (if String.eqb rest "" then None else digits_value rest 0)
      else digits_value s 0
  end.

Definition exn_name (e : exn) : string :=
  match e with
  | HTTPException c d => pretty c +:+ ": " +:+ d
  | DownloadError m => m
  | LibraryError m => m
  | TypeError => "TypeError"
  | AttributeError => "AttributeError"
  | KeyError => "KeyError"
  | ValueError => "ValueError"
  | OverflowError => "OverflowError"
  | ValidationError => "ValidationError"
  end.

Definition print (v : pyval) : string :=
  match v with
  | VNone => "None"
  | VBool b => if b then "True" else "False"
  | VInt z => pretty z
  | VFloat _ => "<float>"
  | VStr s => s
  | VList _ => "[...]"
  | VDict _ => "{...}"
  end.

(** Model fields that accept a value of their own type and nothing else. *)
#[refine] Instance strict_runtime : Runtime := {|
  str_of := print;
  exn_str := exn_name;
  int_of_str := parse_int;
  field_str v := match v with VStr s => Some s | _ => None end;
  field_int v := match v with VInt z => Some z | _ => None end;
  field_float v := match v with VFloat f => Some f | _ => None end;
|}.
Proof. all: reflexivity. Defined.

Definition format_18 : pyval :=
  VDict (<["format_id" := VStr "18"]> (<["ext" := VStr "mp4"]>
        (<["url" := VStr "https://cdn.example/18"]> ∅))).

Definition format_bare : pyval := VDict ∅.

Definition info_clip : pyval :=
  VDict (<["title" := VStr "Clip"]> (<["duration" := VInt 12]>
        (<["formats" := VList [format_18; format_bare]]> ∅))).

Definition info_bare : pyval :=
  VDict (<["formats" := VList [format_bare]]> ∅).

(** A result without title, whose only format has no [ext]. *)
Definition format_plain : pyval :=
  VDict (<["format_id" := VStr "18"]> (<["url" := VStr "https://cdn.example/18"]> ∅)).

Definition info_untitled : pyval :=
  VDict (<["formats" := VList [format_plain]]> ∅).

Definition info_no_formats : pyval :=
  VDict (<["title" := VStr "Clip"]> ∅).

Instance sample_ydl : YtDlp.YoutubeDL := {|
  YtDlp.extract_info opts url :=
    if String.eqb url "https://youtu.be/clip" then Returns info_clip
    else if String.eqb url "https://youtu.be/bare" then Returns info_bare
    else if String.eqb url "https://youtu.be/untitled" then Returns info_untitled
    else if String.eqb url "https://youtu.be/none" then Returns info_no_formats
    else Raises (DownloadError "Unsupported URL");
  YtDlp.prepare_filename opts info :=
    match get info "title" VNone with
    | Returns (VStr t) => Returns (t +:+ ".mp4")
    | _ => Returns "NA"
    end;
|}.

Definition stream_18 : Pytube.Stream.t := {|
  Pytube.Stream.itag := 18;
  Pytube.Stream.resolution := Some "360p";
  Pytube.Stream.mime_type := "video/mp4";
  Pytube.Stream.filesize := Returns 1000;
  Pytube.Stream.abr := Some "96kbps";
  Pytube.Stream.subtype := "mp4";
  Pytube.Stream.url := "https://cdn.example/18";
|}.

Definition stream_22 : Pytube.Stream.t := {|
  Pytube.Stream.itag := 22;
  Pytube.Stream.resolution := Some "720p";
  Pytube.Stream.mime_type := "video/mp4";
  Pytube.Stream.filesize := Returns 4000;
  Pytube.Stream.abr := Some "192kbps";
  Pytube.Stream.subtype := "mp4";
  Pytube.Stream.url := "https://cdn.example/22";
|}.

(** An audio-only stream: not progressive. *)
Definition stream_140 : Pytube.Stream.t := {|
  Pytube.Stream.itag := 140;
  Pytube.Stream.resolution := None;
  Pytube.Stream.mime_type := "audio/mp4";
  Pytube.Stream.filesize := Returns 300;
  Pytube.Stream.abr := Some "128kbps";
  Pytube.Stream.subtype := "mp4";
  Pytube.Stream.url := "https://cdn.example/140";
|}.

Definition yt_clip : Pytube.YouTube.t := {|
  Pytube.YouTube.streams := Returns [stream_18; stream_22; stream_140];
  Pytube.YouTube.title := Returns "My clip";
  Pytube.YouTube.thumbnail_url := Returns "https://img.example/clip.jpg";
  Pytube.YouTube.length := Returns 12;
|}.

Definition yt_audio : Pytube.YouTube.t := {|
  Pytube.YouTube.streams := Returns [stream_140];
  Pytube.YouTube.title := Returns "Song";
  Pytube.YouTube.thumbnail_url := Returns "https://img.example/song.jpg";
  Pytube.YouTube.length := Returns 200;
|}.

Definition has_video (s : Pytube.Stream.t) : bool :=
  match Pytube.Stream.resolution s with Some _ => true | None => false end.

Instance sample_pytube : Pytube.PytubeLib := {|
  Pytube.YouTube_new url :=
    if String.eqb url "https://youtu.be/clip" then Returns yt_clip
    else if String.eqb url "https://youtu.be/song" then Returns yt_audio
    else Raises (LibraryError "regex_search: could not find match");
  Pytube.filter_progressive_mp4 l :=
    Returns (List.filter (λ s, has_video s && String.eqb (Pytube.Stream.subtype s) "mp4") l);
  Pytube.order_by_resolution l := Returns (List.filter has_video l);
  Pytube.desc l := Returns (rev l);
  Pytube.get_by_itag l i :=
    Returns (List.find (λ s, Z.eqb (Pytube.Stream.itag s) i) l);
|}.

Definition video_a : Rutube.video :=
  {| Rutube.written := [Byte.x0a; Byte.x0a]; Rutube.failure := None |}.
Definition video_b : Rutube.video :=
  {| Rutube.written := [Byte.x0b]; Rutube.failure := None |}.

Instance sample_rutube : Rutube.RutubeLib := {|
  Rutube.Rutube_new url :=
    if String.eqb url "https://rutube.ru/video/a/" then Returns (Returns (Some video_a))
    else if String.eqb url "https://rutube.ru/video/b/" then Returns (Returns (Some video_b))
    else Raises (LibraryError "Invalid video url");
|}.

Definition empty_world : Rutube.world :=
  {| Rutube.files := ∅; Rutube.calls := [] |}.

End Sample.

(** More library results, for the behaviour at the edges. *)

Module MoreSamples.
Import Py.

(** A format with dimensions instead of a resolution, and an
    approximate size instead of a size. *)
Definition entry_hd : gmap string pyval :=
  <["format_id" := VStr "22"]> (<["ext" := VStr "mp4"]>
  (<["width" := VInt 1280]> (<["height" := VInt 720]>
  (<["filesize" := VInt 0]> (<["filesize_approx" := VInt 5000]>
  (<["url" := VStr "https://cdn.example/22"]> ∅)))))).

Definition entry_no_url : gmap string pyval :=
  <["format_id" := VStr "18"]> ∅.

Definition info_talk : gmap string pyval :=
  <["title" := VStr "Talk"]> (<["thumbnail" := VStr "https://img.example/talk.jpg"]>
  (<["duration" := VFloat (FFinite (25 # 2))]> (<["uploader" := VStr "Ann"]>
  (<["formats" := VList [VDict entry_hd]]> ∅)))).

Definition info_bad_duration : gmap string pyval :=
  <["title" := VStr "Talk"]> (<["duration" := VNone]>
  (<["formats" := VList [VDict entry_hd]]> ∅)).

Definition info_bad_entry : gmap string pyval :=
  <["formats" := VList [VDict entry_hd; VNone; VDict entry_hd]]> ∅.

Definition info_null_formats : gmap string pyval :=
  <["title" := VStr "Talk"]> (<["formats" := VNone]> ∅).

(** The top-level result has the itag and a URL, and so has an entry of
    its list, but without URL. *)
Definition info_hidden : gmap string pyval :=
  <["format_id" := VStr "18"]> (<["url" := VStr "https://cdn.example/top"]>
  (<["formats" := VList [VDict entry_hd; VDict entry_no_url; VNone]]> ∅)).

Instance ydl : YtDlp.YoutubeDL := {|
  YtDlp.extract_info opts url :=
    if String.eqb url "https://youtu.be/talk" then Returns (VDict info_talk)
    else if String.eqb url "https://youtu.be/bad-duration"
    then Returns (VDict info_bad_duration)
    else if String.eqb url "https://youtu.be/bad-entry" then Returns (VDict info_bad_entry)
    else if String.eqb url "https://youtu.be/null-formats"
    then Returns (VDict info_null_formats)
    else if String.eqb url "https://youtu.be/hidden" then Returns (VDict info_hidden)
    else Raises (DownloadError "Video unavailable");
  YtDlp.prepare_filename opts info := Returns "Talk.mp4";
|}.

(** A stream whose size cannot be read. *)
Definition stream_broken : Pytube.Stream.t := {|
  Pytube.Stream.itag := 22;
  Pytube.Stream.resolution := Some "720p";
  Pytube.Stream.mime_type := "video/mp4";
  Pytube.Stream.filesize := Raises (LibraryError "HTTP Error 403: Forbidden");
  Pytube.Stream.abr := Some "192kbps";
  Pytube.Stream.subtype := "mp4";
  Pytube.Stream.url := "https://cdn.example/22";
|}.

Definition yt_broken : Pytube.YouTube.t := {|
  Pytube.YouTube.streams := Returns [Sample.stream_18; stream_broken];
  Pytube.YouTube.title := Returns "My clip";
  Pytube.YouTube.thumbnail_url := Returns "https://img.example/clip.jpg";
  Pytube.YouTube.length := Returns 12;
|}.

Instance pytube : Pytube.PytubeLib := {|
  Pytube.YouTube_new url :=
    if String.eqb url "https://youtu.be/broken" then Returns yt_broken
    else Pytube.YouTube_new (PytubeLib := Sample.sample_pytube) url;
  Pytube.filter_progressive_mp4 :=
    Pytube.filter_progressive_mp4 (PytubeLib := Sample.sample_pytube);
  Pytube.order_by_resolution :=
    Pytube.order_by_resolution (PytubeLib := Sample.sample_pytube);
  Pytube.desc := Pytube.desc (PytubeLib := Sample.sample_pytube);
  Pytube.get_by_itag := Pytube.get_by_itag (PytubeLib := Sample.sample_pytube);
|}.




End MoreSamples.

(** ** Stepping through the monad *)

Import Py.

Ltac unfold_monad :=
  unfold mbind, mret, M_bind, M_ret, outcome_bind, outcome_ret,
    try_except, raise, lift, modify in *.

Lemma bind_Returns {A B} (a : A) (k : A → outcome B) : Returns a ≫= k = k a.
Proof. reflexivity. Qed.

Lemma bind_returns {A B} (o : outcome A) (k : A → outcome B) (b : B) :
  o ≫= k = Returns b → ∃ a, o = Returns a ∧ k a = Returns b.
Proof. destruct o as [a|e]; [eauto | discriminate]. Qed.

Lemma M_bind_run {S A B} (m : M S A) (k : A → M S B) (s : S) :
  (m ≫= k : M S B) s =
    match m s with
    | (Returns a, s') => k a s'
    | (Raises e, s') => (Raises e, s')
    end.
Proof. reflexivity. Qed.

Lemma truthy_dict_lookup (d : gmap string pyval) (k : string) (v : pyval) :
  d !! k = Some v → truthy (VDict d) = true.
Proof.
  intros Hk. simpl. destruct (bool_decide_reflect (d = ∅)) as [->|_]; [|done].
  by rewrite lookup_empty in Hk.
Qed.

Lemma get_returns (v : pyval) (k : string) (dflt r : pyval) :
  get v k dflt = Returns r →
  ∃ d, v = VDict d ∧ r = from_option id dflt (d !! k).
Proof. destruct v; simpl; try discriminate. intros [= <-]. eauto. Qed.

(** ** The yt-dlp service: which format is selected *)

Section Selection.
Context `{Runtime}.

Lemma has_format_id_truthy (format_itag : string) (f : pyval) :
  YtDlp.has_format_id format_itag f = true → truthy f = true.
Proof.
  unfold YtDlp.has_format_id. destruct f as [| | | | |l|d]; simpl; try discriminate.
  destruct (d !! "format_id") as [id|] eqn:Hid; [|discriminate].
  intros _. by eapply truthy_dict_lookup.
Qed.

Lemma find_format_returns (fs : list pyval) (format_itag : string) (r : pyval) :
  YtDlp.find_format fs format_itag = Returns r →
  (∃ before f after, fs = before ++ f :: after ∧
     Forall (λ x, YtDlp.has_format_id format_itag x = false) before ∧
     YtDlp.has_format_id format_itag f = true ∧ r = f)
  ∨ (Forall (λ x, YtDlp.has_format_id format_itag x = false) fs ∧ r = VNone).
Proof.
  induction fs as [|f rest IH]; simpl.
  - intros [= <-]. right. auto.
  - intros Hrun. apply bind_returns in Hrun as (id & Hget & Hrest).
    destruct (eq_str id format_itag) eqn:Heq.
    + injection Hrest as <-. left. exists [], f, rest.
      repeat split; auto. unfold YtDlp.has_format_id. by rewrite Hget.
    + assert (YtDlp.has_format_id format_itag f = false) as Hf.
      { unfold YtDlp.has_format_id. by rewrite Hget. }
      destruct (IH Hrest) as [(before & g & after & -> & Hno & Hg & ->)|[Hno ->]].
      * left. exists (f :: before), g, after. repeat split; auto.
      * right. auto.
Qed.

(** C1. Whenever a format is selected for the requested itag, the
    library result is a dict and the selection is exactly this: the first
    entry of its ['formats'], in list order, whose [format_id] equals the
    itag; when ['formats'] is absent or no entry matches, the result
    itself if its own [format_id] equals the itag; and otherwise nothing
    ([None]).  No other entry or value is ever selected. *)
Theorem select_format_exact_match (info : pyval) (format_itag : string) (sel : pyval) :
  YtDlp.select_format info format_itag = Returns sel →
  ∃ d, info = VDict d ∧
    let top_level := if YtDlp.has_format_id format_itag info then info else VNone in
    match d !! "formats" with
    | Some formats =>
        ∃ fs, iter formats = Returns fs ∧
          ((∃ before f after, fs = before ++ f :: after ∧
              Forall (λ x, YtDlp.has_format_id format_itag x = false) before ∧
              YtDlp.has_format_id format_itag f = true ∧ sel = f)
           ∨ (Forall (λ x, YtDlp.has_format_id format_itag x = false) fs ∧
              sel = top_level))
    | None => sel = top_level
    end.
Proof.
  unfold YtDlp.select_format. intros Hrun.
  apply bind_returns in Hrun as (has_formats & Hin & Hrun).
  apply bind_returns in Hrun as (found & Hfound & Hrun).
  assert (truthy found = false →
          ∃ d, info = VDict d ∧
               sel = if YtDlp.has_format_id format_itag info then info else found) as Htop.
  { intros Hf. rewrite Hf in Hrun. simpl in Hrun.
    apply bind_returns in Hrun as (id & Hget & Hrun).
    destruct (get_returns _ _ _ _ Hget) as (d & -> & _). exists d. split; [done|].
    unfold YtDlp.has_format_id. rewrite Hget.
    by destruct (eq_str id format_itag); injection Hrun as <-. }
  destruct has_formats.
  - apply bind_returns in Hfound as (formats & Hitem & Hfound).
    apply bind_returns in Hfound as (fs & Hiter & Hfound).
    destruct info as [| | | | | |d]; simpl in Hitem; try discriminate.
    exists d. split; [done|].
    destruct (d !! "formats") as [x|]; [|discriminate]. injection Hitem as ->.
    exists fs. split; [done|].
    destruct (find_format_returns _ _ _ Hfound)
      as [(before & f & after & -> & Hno & Hf & ->)|[Hno ->]].
    + left. exists before, f, after. repeat split; auto.
      rewrite (has_format_id_truthy _ _ Hf) in Hrun. simpl in Hrun. by injection Hrun.
    + right. split; [done|].
      destruct Htop as (d' & [= <-] & ->); [done|]. done.
  - injection Hfound as <-.
    destruct Htop as (d & -> & ->); [done|]. exists d. split; [done|].
    simpl in Hin. injection Hin as Hin.
    destruct (d !! "formats") as [x|] eqn:Hx; [|done].
    exfalso. apply bool_decide_eq_false in Hin. apply Hin. eauto.
Qed.

Lemma find_format_dicts (ds : list (gmap string pyval)) (format_itag : string) :
  ∃ r, YtDlp.find_format (VDict <$> ds) format_itag = Returns r.
Proof.
  induction ds as [|e ds [r IH]]; [by exists VNone|].
  cbn [fmap list_fmap YtDlp.find_format get]. rewrite bind_Returns.
  destruct (eq_str _ format_itag); eauto.
Qed.

(** The selection does not fail on a well-formed library result: a dict
    whose ['formats'], if present, is a list of dicts. *)
Lemma select_format_returns (d : gmap string pyval) (ds : list (gmap string pyval))
    (format_itag : string) :
  d !! "formats" = None ∨ d !! "formats" = Some (VList (VDict <$> ds)) →
  ∃ sel, YtDlp.select_format (VDict d) format_itag = Returns sel.
Proof.
  intros Hformats. unfold YtDlp.select_format. cbn [contains getitem get].
  rewrite bind_Returns.
  assert (∀ found, ∃ sel,
            (if negb (truthy found)
             then Returns (from_option id VNone (d !! "format_id")) ≫= λ id0,
                    if eq_str id0 format_itag then Returns (VDict d) else Returns found
             else Returns found) = Returns sel) as Hrest.
  { intros found. destruct (negb (truthy found)); [|eauto].
    rewrite bind_Returns. destruct (eq_str _ format_itag); eauto. }
  destruct Hformats as [Hf|Hf]; rewrite Hf.
  - rewrite bool_decide_eq_false_2 by (by intros [? [=]]).
    rewrite bind_Returns. apply Hrest.
  - rewrite bool_decide_eq_true_2 by eauto.
    rewrite bind_Returns. cbn [iter]. rewrite bind_Returns.
    destruct (find_format_dicts ds format_itag) as [r ->].
    rewrite bind_Returns. apply Hrest.
Qed.

End Selection.

(** ** Error mapping at the endpoints *)

Lemma truthy_str_nonempty (s : string) : s ≠ "" → truthy (VStr s) = true.
Proof.
  intros Hs. simpl. destruct (String.eqb_spec s "") as [->|_]; [done|reflexivity].
Qed.

Section PytubeErrors.
Context `{Runtime} `{Pytube.PytubeLib}.

Lemma pytube_video_info_run (url : string) (cs : list string) :
  url ≠ "" →
  Pytube.get_video_information url cs =
    match Pytube.get_video_information_try url cs with
    | (Returns body, cs') => (Returns body, cs')
    | (Raises e, cs') =>
        (Raises (HTTPException 500 ("Ошибка сервера при обработке URL: " +:+ exn_str e)),
         cs')
    end.
Proof.
  intros Hurl. unfold Pytube.get_video_information.
  rewrite (truthy_str_nonempty _ Hurl). simpl. unfold try_except, raise.
  by destruct (Pytube.get_video_information_try url cs) as [[body|e] cs'].
Qed.

Lemma pytube_download_link_run (url itag : string) (cs : list string) :
  url ≠ "" → itag ≠ "" →
  Pytube.get_download_link url itag cs =
    match Pytube.get_download_link_try url itag cs with
    | (Returns body, cs') => (Returns body, cs')
    | (Raises e, cs') =>
        (Raises (HTTPException 500 ("Ошибка сервера при получении ссылки: " +:+ exn_str e)),
         cs')
    end.
Proof.
  intros Hurl Hitag. unfold Pytube.get_download_link.
  rewrite (truthy_str_nonempty _ Hurl), (truthy_str_nonempty _ Hitag). simpl.
  unfold try_except, raise.
  by destruct (Pytube.get_download_link_try url itag cs) as [[body|e] cs'].
Qed.

(** C2, at the place where the code departs from it.  In the pytube
    service an [HTTPException] raised inside the [try] suite of either
    endpoint does not leave the endpoint with its own status code: the
    only handler, [except Exception], catches it and raises a 500 whose
    detail embeds it. *)
Theorem pytube_rewraps_http_exception
    (url itag : string) (cs cs' : list string) (c : Z) (d : string) :
  url ≠ "" → itag ≠ "" →
  (Pytube.get_video_information_try url cs = (Raises (HTTPException c d), cs') →
   Pytube.get_video_information url cs =
     (Raises (HTTPException 500
        ("Ошибка сервера при обработке URL: " +:+ exn_str (HTTPException c d))), cs'))
  ∧
  (Pytube.get_download_link_try url itag cs = (Raises (HTTPException c d), cs') →
   Pytube.get_download_link url itag cs =
     (Raises (HTTPException 500
        ("Ошибка сервера при получении ссылки: " +:+ exn_str (HTTPException c d))), cs')).
Proof.
  intros Hurl Hitag. split; intros Htry.
  - by rewrite pytube_video_info_run, Htry.
  - by rewrite pytube_download_link_run, Htry.
Qed.

(** C3, at the place where the code departs from it.  In the pytube
    service, when the library resolves the URL and the query for
    progressive mp4 streams yields none, the endpoint raises its 404
    inside the [try] suite and answers 500. *)
Theorem pytube_video_info_zero_formats_is_500
    (url : string) (cs : list string) (yt : Pytube.YouTube.t) :
  url ≠ "" →
  Pytube.YouTube_new url = Returns yt →
  Pytube.progressive_mp4_streams yt = Returns [] →
  Pytube.get_video_information url cs =
    (Raises (HTTPException 500
       ("Ошибка сервера при обработке URL: " +:+
        exn_str (HTTPException 404 Pytube.detail_404_formats))),
     cs ++ [url]).
Proof.
  intros Hurl Hnew Hquery. rewrite pytube_video_info_run by done.
  unfold Pytube.get_video_information_try, Pytube.call_YouTube,
    Pytube.shape_video_information. unfold_monad.
  by rewrite Hnew, Hquery.
Qed.

(** The same in the other endpoint of the pytube service: an itag that
    [get_by_itag] does not know is answered 500. *)
Lemma pytube_download_link_unknown_itag_is_500
    (url itag : string) (cs : list string) (yt : Pytube.YouTube.t)
    (all : list Pytube.Stream.t) (i : Z) :
  url ≠ "" → itag ≠ "" →
  Pytube.YouTube_new url = Returns yt →
  Pytube.YouTube.streams yt = Returns all →
  int_of_str itag = Some i →
  Pytube.get_by_itag all i = Returns None →
  Pytube.get_download_link url itag cs =
    (Raises (HTTPException 500
       ("Ошибка сервера при получении ссылки: " +:+
        exn_str (HTTPException 404 (Pytube.detail_404_itag itag)))),
     cs ++ [url]).
Proof.
  intros Hurl Hitag Hnew Hall Hint Hget. rewrite pytube_download_link_run by done.
  unfold Pytube.get_download_link_try, Pytube.call_YouTube,
    Pytube.shape_download_link. unfold_monad.
  rewrite Hnew, Hall. simpl. by rewrite Hint, Hget.
Qed.

(** C10. In the pytube service, a download-link request whose url and
    itag are not empty and whose itag [int()] does not parse is answered
    500 with the generic detail of the endpoint, whatever the library
    does, so never 200, 400 or 404.  The exception the detail embeds is
    the library's when the library fails first, and the [ValueError] of
    [int(itag)] otherwise. *)
Theorem pytube_download_link_non_integer_itag
    (url itag : string) (cs : list string) :
  url ≠ "" → itag ≠ "" → int_of_str itag = None →
  ∃ e, Pytube.get_download_link url itag cs =
         (Raises (HTTPException 500
            ("Ошибка сервера при получении ссылки: " +:+ exn_str e)), cs ++ [url])
       ∧ e = match Pytube.YouTube_new url with
             | Returns yt =>
                 match Pytube.YouTube.streams yt with
                 | Returns _ => ValueError
                 | Raises e' => e'
                 end
             | Raises e' => e'
             end.
Proof.
  intros Hurl Hitag Hint. rewrite pytube_download_link_run by done.
  unfold Pytube.get_download_link_try, Pytube.call_YouTube,
    Pytube.shape_download_link. unfold_monad.
  destruct (Pytube.YouTube_new url) as [yt|e]; [|by eexists].
  destruct (Pytube.YouTube.streams yt) as [all|e]; [|by eexists].
  simpl. rewrite Hint. by eexists.
Qed.

End PytubeErrors.

Section YtDlpErrors.
Context `{Runtime} `{YtDlp.YoutubeDL}.
Variable COOKIES_FILE_PATH : string.
Variable cookies_exist : bool.

Local Abbreviation opts_info := (YtDlp.ydl_opts_info COOKIES_FILE_PATH cookies_exist).
Local Abbreviation opts_download := (YtDlp.ydl_opts_download COOKIES_FILE_PATH cookies_exist).
Local Abbreviation fetch_video_info_blocking :=
  (YtDlp.fetch_video_info_blocking COOKIES_FILE_PATH cookies_exist).
Local Abbreviation get_download_link_blocking_try :=
  (YtDlp.get_download_link_blocking_try COOKIES_FILE_PATH cookies_exist).
Local Abbreviation get_download_link_blocking :=
  (YtDlp.get_download_link_blocking COOKIES_FILE_PATH cookies_exist).
Local Abbreviation get_video_information_try :=
  (YtDlp.get_video_information_try COOKIES_FILE_PATH cookies_exist).
Local Abbreviation get_video_information :=
  (YtDlp.get_video_information COOKIES_FILE_PATH cookies_exist).
Local Abbreviation get_download_link_try :=
  (YtDlp.get_download_link_try COOKIES_FILE_PATH cookies_exist).
Local Abbreviation get_download_link :=
  (YtDlp.get_download_link COOKIES_FILE_PATH cookies_exist).

Lemma ytdlp_video_info_run (url : string) (cs : list YtDlp.call) :
  url ≠ "" →
  get_video_information url cs =
    match get_video_information_try url cs with
    | (Returns body, cs') => (Returns body, cs')
    | (Raises e, cs') =>
        (Raises (YtDlp.endpoint_handler
                   "Внутренняя ошибка сервера при обработке вашего запроса: " e), cs')
    end.
Proof.
  intros Hurl. unfold YtDlp.get_video_information.
  rewrite (truthy_str_nonempty _ Hurl). simpl. unfold try_except, raise.
  destruct (get_video_information_try url cs) as [[body|e] cs']; [done|].
  by destruct e.
Qed.

Lemma ytdlp_download_link_run (url itag : string) (cs : list YtDlp.call) :
  url ≠ "" → itag ≠ "" →
  get_download_link url itag cs =
    match get_download_link_try url itag cs with
    | (Returns body, cs') => (Returns body, cs')
    | (Raises e, cs') =>
        (Raises (YtDlp.endpoint_handler
                   "Внутренняя ошибка сервера при получении ссылки на скачивание: " e),
         cs')
    end.
Proof.
  intros Hurl Hitag. unfold YtDlp.get_download_link.
  rewrite (truthy_str_nonempty _ Hurl), (truthy_str_nonempty _ Hitag). simpl.
  unfold try_except, raise.
  destruct (get_download_link_try url itag cs) as [[body|e] cs']; [done|].
  by destruct e.
Qed.

(** At the endpoints of the yt-dlp service an [HTTPException] of the
    [try] suite leaves the endpoint as it is, and any other exception
    becomes a 500. *)
Lemma ytdlp_endpoints_reraise (url itag : string) (cs cs' : list YtDlp.call) (e : exn) :
  url ≠ "" → itag ≠ "" →
  (get_video_information_try url cs = (Raises e, cs') →
   get_video_information url cs =
     (Raises (if is_http e then e
              else HTTPException 500
                     ("Внутренняя ошибка сервера при обработке вашего запроса: "
                      +:+ exn_str e)), cs'))
  ∧
  (get_download_link_try url itag cs = (Raises e, cs') →
   get_download_link url itag cs =
     (Raises (if is_http e then e
              else HTTPException 500
                     ("Внутренняя ошибка сервера при получении ссылки на скачивание: "
                      +:+ exn_str e)), cs')).
Proof.
  intros Hurl Hitag. split; intros Htry.
  - rewrite ytdlp_video_info_run, Htry by done. by destruct e.
  - rewrite ytdlp_download_link_run, Htry by done. by destruct e.
Qed.

(** The adapter of the download link turns every exception of its
    [try] suite into a 500, its own 404 included. *)
Lemma ytdlp_blocking_run (url itag : string) (cs : list YtDlp.call) :
  get_download_link_blocking url itag cs =
    match get_download_link_blocking_try url itag cs with
    | (Returns r, cs') => (Returns r, cs')
    | (Raises e, cs') =>
        (Raises (HTTPException 500
           ((match e with
             | DownloadError _ => "Ошибка yt-dlp при получении ссылки на скачивание: "
             | _ => "Непредвиденная ошибка сервера при получении ссылки: "
             end) +:+ exn_str e)), cs')
    end.
Proof.
  unfold YtDlp.get_download_link_blocking, try_except, raise.
  destruct (get_download_link_blocking_try url itag cs) as [[r|e] cs']; [done|].
  by destruct e.
Qed.

(** C4, at the place where the code departs from it.  In the yt-dlp
    service, when the library resolves the URL and the selected format is
    nothing, or something without a ['url'], the adapter raises its 404
    inside its own [try] suite, whose [except Exception] turns it into a
    500; the endpoint passes that 500 on. *)
Theorem ytdlp_download_link_unresolved_is_500
    (url itag : string) (cs : list YtDlp.call) (info sel : pyval) :
  url ≠ "" → itag ≠ "" →
  YtDlp.extract_info (opts_download itag) url = Returns info →
  YtDlp.select_format info itag = Returns sel →
  truthy sel = false ∨ contains "url" sel = Returns false →
  get_download_link url itag cs =
    (Raises (HTTPException 500
       ("Непредвиденная ошибка сервера при получении ссылки: " +:+
        exn_str (HTTPException 404 (YtDlp.detail_404_link itag)))),
     cs ++ [YtDlp.ExtractInfo (opts_download itag) url]).
Proof.
  intros Hurl Hitag Hinfo Hsel Hno.
  rewrite ytdlp_download_link_run by done.
  unfold YtDlp.get_download_link_try.
  rewrite M_bind_run, ytdlp_blocking_run.
  assert (get_download_link_blocking_try url itag cs =
          (Raises (HTTPException 404 (YtDlp.detail_404_link itag)),
           cs ++ [YtDlp.ExtractInfo (opts_download itag) url])) as ->.
  { unfold YtDlp.get_download_link_blocking_try, YtDlp.call_extract_info.
    unfold_monad. rewrite Hinfo, Hsel.
    destruct Hno as [->| ->]; [done|]. by destruct (truthy sel). }
  done.
Qed.

End YtDlpErrors.

(** ** The list of formats of a 200 response *)

Ltac invert_binds H :=
  repeat (let a := fresh "a" in
          let Ha := fresh "Ha" in
          apply bind_returns in H as (a & Ha & H)).

Lemma M_bind_returns {S A B} (m : M S A) (k : A → M S B) (s s' : S) (b : B) :
  (m ≫= k : M S B) s = (Returns b, s') →
  ∃ a s1, m s = (Returns a, s1) ∧ k a s1 = (Returns b, s').
Proof.
  rewrite M_bind_run. destruct (m s) as [[a|e] s1]; [eauto | discriminate].
Qed.

Lemma lift_returns {S A} (o : outcome A) (s s' : S) (a : A) :
  lift o s = (Returns a, s') → o = Returns a ∧ s' = s.
Proof. unfold lift. by intros [= -> ->]. Qed.

Section Shaping.
Context `{Runtime}.

Lemma shape_format_only_dict (f : pyval) (x : YtDlp.VideoFormatInfo) :
  YtDlp.shape_format f = Returns x → ∃ d, f = VDict d.
Proof. destruct f; try discriminate. eauto. Qed.

Lemma shape_formats_each (fs : list pyval) (r : list YtDlp.VideoFormatInfo) :
  YtDlp.shape_formats fs = Returns r →
  Forall2 (λ f x, YtDlp.shape_format f = Returns x) fs r.
Proof.
  revert r. induction fs as [|f rest IH]; simpl; intros r Hrun.
  - injection Hrun as <-. constructor.
  - invert_binds Hrun. injection Hrun as <-. constructor; auto.
Qed.

Lemma shape_formats_of_list (formats : pyval) (fs : list pyval)
    (r : list YtDlp.VideoFormatInfo) :
  iter formats = Returns fs → YtDlp.shape_formats fs = Returns r → r ≠ [] →
  formats = VList fs.
Proof.
  intros Hiter Hshape Hr. apply shape_formats_each in Hshape.
  destruct Hshape as [|f x rest r' Hf _]; [done|].
  apply shape_format_only_dict in Hf as [d ->].
  destruct formats as [| | | |s|l|d']; simpl in Hiter; try discriminate.
  - destruct s; simpl in Hiter; discriminate.
  - by injection Hiter as ->.
  - injection Hiter as Hiter. destruct (map_to_list d').*1; simpl in Hiter; discriminate.
Qed.

Lemma shape_details_formats (info_dict : pyval)
    (formats_info : list YtDlp.VideoFormatInfo) (body : YtDlp.VideoDetails) :
  YtDlp.shape_details info_dict formats_info = Returns body →
  YtDlp.available_formats body = formats_info.
Proof.
  unfold YtDlp.shape_details. intros Hrun. invert_binds Hrun. by injection Hrun as <-.
Qed.

Lemma check_youtube_type_dict (d : gmap string pyval) :
  YtDlp.check_youtube_type (VDict d) = Returns tt.
Proof.
  unfold YtDlp.check_youtube_type. cbn [contains].
  destruct (d !! "_type") as [t|] eqn:Ht.
  - rewrite bool_decide_eq_true_2 by eauto. simpl. rewrite Ht. simpl.
    by destruct (eq_str t "youtube").
  - rewrite bool_decide_eq_false_2; [done|]. by intros [? [=]].
Qed.

Lemma shape_info_formats_zero (d : gmap string pyval) :
  d !! "formats" = None ∨ d !! "formats" = Some (VList []) →
  YtDlp.shape_info_formats (VDict d) = Returns [].
Proof.
  intros Hformats. unfold YtDlp.shape_info_formats.
  destruct (truthy (VDict d)); [|done]. cbn [contains].
  destruct Hformats as [Hf|Hf]; rewrite Hf.
  - by rewrite bool_decide_eq_false_2 by (by intros [? [=]]).
  - rewrite bool_decide_eq_true_2 by eauto. simpl. by rewrite Hf.
Qed.

Lemma shape_video_information_zero (d : gmap string pyval) :
  d !! "formats" = None ∨ d !! "formats" = Some (VList []) →
  YtDlp.shape_video_information (VDict d)
    = Raises (HTTPException 404 YtDlp.detail_404_formats).
Proof.
  intros Hformats. unfold YtDlp.shape_video_information.
  rewrite (shape_info_formats_zero _ Hformats). simpl.
  by rewrite check_youtube_type_dict.
Qed.

Lemma shape_info_formats_returns (info_dict : pyval)
    (formats_info : list YtDlp.VideoFormatInfo) :
  YtDlp.shape_info_formats info_dict = Returns formats_info → formats_info ≠ [] →
  ∃ d fs, info_dict = VDict d ∧ d !! "formats" = Some (VList fs) ∧
          YtDlp.shape_formats fs = Returns formats_info.
Proof.
  unfold YtDlp.shape_info_formats. intros Hrun Hne.
  apply bind_returns in Hrun as (has_formats & _ & Hrun).
  destruct has_formats; [|by injection Hrun as <-].
  apply bind_returns in Hrun as (formats & Hitem & Hrun).
  apply bind_returns in Hrun as (fs & Hiter & Hrun).
  destruct info_dict as [| | | | | |d]; simpl in Hitem; try discriminate.
  destruct (d !! "formats") as [x|] eqn:Hx; [|discriminate]. injection Hitem as ->.
  rewrite (shape_formats_of_list _ _ _ Hiter Hrun Hne) in Hx. eauto.
Qed.

Lemma shape_video_information_returns (info_dict : pyval) (body : YtDlp.VideoDetails) :
  YtDlp.shape_video_information info_dict = Returns body →
  YtDlp.available_formats body ≠ [] ∧
  YtDlp.shape_info_formats info_dict = Returns (YtDlp.available_formats body) ∧
  YtDlp.shape_details info_dict (YtDlp.available_formats body) = Returns body.
Proof.
  unfold YtDlp.shape_video_information. intros Hrun.
  apply bind_returns in Hrun as (formats_info & Hformats & Hrun).
  destruct formats_info as [|x xs].
  - by apply bind_returns in Hrun as (? & _ & [=]).
  - by rewrite (shape_details_formats _ _ _ Hrun).
Qed.

Lemma shape_streams_each (l : list Pytube.Stream.t) (r : list Pytube.VideoFormatInfo) :
  Pytube.shape_streams l = Returns r →
  Forall2 (λ s x, Pytube.shape_stream s = Returns x) l r.
Proof.
  revert r. induction l as [|s rest IH]; simpl; intros r Hrun.
  - injection Hrun as <-. constructor.
  - invert_binds Hrun. injection Hrun as <-. constructor; auto.
Qed.

End Shaping.

Section VideoInfo.
Context `{Runtime} `{YtDlp.YoutubeDL} `{Pytube.PytubeLib}.
Variable COOKIES_FILE_PATH : string.
Variable cookies_exist : bool.

Local Abbreviation opts_info := (YtDlp.ydl_opts_info COOKIES_FILE_PATH cookies_exist).

Lemma fetch_video_info_returns (url : string) (cs cs' : list YtDlp.call) (info : pyval) :
  YtDlp.fetch_video_info_blocking COOKIES_FILE_PATH cookies_exist url cs
    = (Returns info, cs') →
  ∃ d, info = VDict d ∧ YtDlp.extract_info opts_info url = Returns (VDict d) ∧
       cs' = cs ++ [YtDlp.ExtractInfo opts_info url].
Proof.
  unfold YtDlp.fetch_video_info_blocking, YtDlp.fetch_video_info_try,
    YtDlp.call_extract_info. unfold_monad.
  destruct (YtDlp.extract_info opts_info url) as [v|e]; simpl.
  - destruct v; simpl; try discriminate. intros [= <- <-]. eauto.
  - by destruct e.
Qed.

Lemma fetch_video_info_dict (url : string) (cs : list YtDlp.call) (d : gmap string pyval) :
  YtDlp.extract_info opts_info url = Returns (VDict d) →
  YtDlp.fetch_video_info_blocking COOKIES_FILE_PATH cookies_exist url cs
    = (Returns (VDict d), cs ++ [YtDlp.ExtractInfo opts_info url]).
Proof.
  intros Hinfo.
  unfold YtDlp.fetch_video_info_blocking, YtDlp.fetch_video_info_try,
    YtDlp.call_extract_info. unfold_monad. by rewrite Hinfo.
Qed.

(** In the yt-dlp service a library result without ['formats'], or
    with an empty list of them, is answered 404. *)
Lemma ytdlp_video_info_zero_formats_is_404
    (url : string) (cs : list YtDlp.call) (d : gmap string pyval) :
  url ≠ "" →
  YtDlp.extract_info opts_info url = Returns (VDict d) →
  d !! "formats" = None ∨ d !! "formats" = Some (VList []) →
  YtDlp.get_video_information COOKIES_FILE_PATH cookies_exist url cs =
    (Raises (HTTPException 404 YtDlp.detail_404_formats),
     cs ++ [YtDlp.ExtractInfo opts_info url]).
Proof.
  intros Hurl Hinfo Hformats. rewrite ytdlp_video_info_run by done.
  unfold YtDlp.get_video_information_try.
  rewrite M_bind_run, (fetch_video_info_dict _ _ _ Hinfo). unfold lift.
  by rewrite (shape_video_information_zero _ Hformats).
Qed.

Lemma ytdlp_video_info_returns (url : string) (cs cs' : list YtDlp.call)
    (body : YtDlp.VideoDetails) :
  YtDlp.get_video_information COOKIES_FILE_PATH cookies_exist url cs
    = (Returns body, cs') →
  url ≠ "" ∧
  ∃ d, YtDlp.extract_info opts_info url = Returns (VDict d) ∧
       YtDlp.shape_video_information (VDict d) = Returns body ∧
       cs' = cs ++ [YtDlp.ExtractInfo opts_info url].
Proof.
  intros Hrun. assert (url ≠ "") as Hurl.
  { intros ->. discriminate Hrun. }
  split; [done|]. rewrite ytdlp_video_info_run in Hrun by done.
  destruct (YtDlp.get_video_information_try _ _ url cs) as [[b|e] cs1] eqn:Htry;
    [|discriminate].
  injection Hrun as -> ->. unfold YtDlp.get_video_information_try in Htry.
  apply M_bind_returns in Htry as (info & cs1 & Hfetch & Hshape).
  apply fetch_video_info_returns in Hfetch as (d & -> & Hinfo & ->).
  apply lift_returns in Hshape as [Hshape ->]. eauto.
Qed.

Lemma pytube_video_info_returns (url : string) (cs cs' : list string)
    (body : Pytube.VideoDetails) :
  Pytube.get_video_information url cs = (Returns body, cs') →
  url ≠ "" ∧
  ∃ yt, Pytube.YouTube_new url = Returns yt ∧
        Pytube.shape_video_information yt = Returns body ∧ cs' = cs ++ [url].
Proof.
  intros Hrun. assert (url ≠ "") as Hurl.
  { intros ->. discriminate Hrun. }
  split; [done|]. rewrite pytube_video_info_run in Hrun by done.
  destruct (Pytube.get_video_information_try url cs) as [[b|e] cs1] eqn:Htry;
    [|discriminate].
  injection Hrun as -> ->. unfold Pytube.get_video_information_try in Htry.
  apply M_bind_returns in Htry as (yt & cs1 & Hcall & Hshape).
  apply lift_returns in Hshape as [Hshape ->].
  unfold Pytube.call_YouTube in Hcall. rewrite M_bind_run in Hcall. simpl in Hcall.
  apply lift_returns in Hcall as [Hnew ->]. eauto.
Qed.

(** C5. A 200 response of the video-info endpoint lists every format
    the library surfaced, in order and none filtered out, and at least
    one.  In the yt-dlp service the library result is a dict whose
    ['formats'] is a list, and [available_formats] is that list shaped
    entry by entry, so of the same length.  In the pytube service
    [available_formats] is the result of the query for progressive mp4
    streams by descending resolution, shaped stream by stream. *)
Theorem video_info_200_lists_every_format :
  (∀ (url : string) (cs cs' : list YtDlp.call) (body : YtDlp.VideoDetails),
     YtDlp.get_video_information COOKIES_FILE_PATH cookies_exist url cs
       = (Returns body, cs') →
     ∃ d fs,
       YtDlp.extract_info opts_info url = Returns (VDict d) ∧
       d !! "formats" = Some (VList fs) ∧
       Forall2 (λ f x, YtDlp.shape_format f = Returns x)
         fs (YtDlp.available_formats body) ∧
       length (YtDlp.available_formats body) = length fs ∧
       YtDlp.available_formats body ≠ [])
  ∧
  (∀ (url : string) (cs cs' : list string) (body : Pytube.VideoDetails),
     Pytube.get_video_information url cs = (Returns body, cs') →
     ∃ yt streams,
       Pytube.YouTube_new url = Returns yt ∧
       Pytube.progressive_mp4_streams yt = Returns streams ∧
       Forall2 (λ s x, Pytube.shape_stream s = Returns x)
         streams (Pytube.available_formats body) ∧
       length (Pytube.available_formats body) = length streams ∧
       Pytube.available_formats body ≠ []).
Proof.
  split.
  - intros url cs cs' body Hrun.
    apply ytdlp_video_info_returns in Hrun as (_ & d & Hinfo & Hshape & _).
    apply shape_video_information_returns in Hshape as (Hne & Hformats & _).
    apply shape_info_formats_returns in Hformats as (d' & fs & [= <-] & Hfs & Hshape);
      [|done].
    apply shape_formats_each in Hshape.
    exists d, fs. repeat split; try done. symmetry. by eapply Forall2_length.
  - intros url cs cs' body Hrun.
    apply pytube_video_info_returns in Hrun as (_ & yt & Hnew & Hshape & _).
    unfold Pytube.shape_video_information in Hshape.
    apply bind_returns in Hshape as (streams & Hquery & Hshape).
    apply bind_returns in Hshape as (formats_info & Hstreams & Hshape).
    apply shape_streams_each in Hstreams.
    destruct formats_info as [|x xs]; [discriminate|].
    invert_binds Hshape. injection Hshape as <-.
    exists yt, streams. cbn [Pytube.available_formats].
    repeat split; try done. symmetry. by eapply Forall2_length.
Qed.

End VideoInfo.

(** ** Placeholders for missing fields *)

Lemma absent_or_lookup (accept : pyval → bool) (d : gmap string pyval) (k : string)
    (dflt : pyval) :
  YtDlp.absent_or accept d k = true → accept dflt = true →
  accept (from_option id dflt (d !! k)) = true.
Proof. unfold YtDlp.absent_or. by destruct (d !! k). Qed.

Lemma from_option_absent (d : gmap string pyval) (k : string) (dflt : pyval) :
  d !! k = None → from_option id dflt (d !! k) = dflt.
Proof. by intros ->. Qed.

Section Placeholders.
Context `{Runtime}.

Lemma required_str (v : pyval) :
  YtDlp.is_str v = true → ∃ s, v = VStr s ∧ required field_str v = Returns s.
Proof.
  destruct v; try discriminate. intros _. eexists. split; [done|].
  unfold required. by rewrite field_str_str.
Qed.

Lemma optional_str (v : pyval) :
  YtDlp.is_opt_str v = true → ∃ o, optional field_str v = Returns o.
Proof.
  destruct v; try discriminate; intros _; simpl; [by eexists|].
  rewrite field_str_str. by eexists.
Qed.

Lemma optional_int (v : pyval) :
  YtDlp.is_opt_int v = true → ∃ o, optional field_int v = Returns o.
Proof.
  destruct v; try discriminate; intros _; simpl; [by eexists|].
  rewrite field_int_int. by eexists.
Qed.

Lemma optional_float (v : pyval) :
  YtDlp.is_opt_float v = true → ∃ o, optional field_float v = Returns o.
Proof.
  destruct v; try discriminate; intros _; simpl; [by eexists|].
  rewrite field_float_float. by eexists.
Qed.

Lemma default_resolution_typed (d : gmap string pyval) :
  YtDlp.absent_or YtDlp.is_dimension d "width" = true →
  YtDlp.absent_or YtDlp.is_dimension d "height" = true →
  ∃ v, YtDlp.default_resolution (VDict d) = Returns v ∧ YtDlp.is_opt_str v = true.
Proof.
  unfold YtDlp.absent_or, YtDlp.default_resolution. cbn [get getitem].
  destruct (d !! "width") as [w|]; [|by eexists].
  destruct w; try discriminate; [by eexists|]. intros Hw. cbn.
  destruct (Z.eqb_spec z 0) as [->|_]; [done|]. cbn.
  destruct (d !! "height") as [h|]; [|by eexists].
  destruct h; try discriminate; [by eexists|]. intros Hh. cbn.
  destruct (Z.eqb_spec z0 0) as [->|_]; [done|]. cbn. by eexists.
Qed.

Lemma filesize_or_approx_typed (d : gmap string pyval) :
  YtDlp.absent_or YtDlp.is_opt_int d "filesize" = true →
  YtDlp.absent_or YtDlp.is_opt_int d "filesize_approx" = true →
  ∃ v, YtDlp.filesize_or_approx (VDict d) = Returns v ∧ YtDlp.is_opt_int v = true.
Proof.
  intros Hsize Happrox. unfold YtDlp.filesize_or_approx. cbn [get].
  rewrite bind_Returns.
  destruct (truthy _); eexists; (split; [done|]); by apply absent_or_lookup.
Qed.

(** An entry whose fields are missing or well typed is shaped, and a
    missing [format_id] or [ext] comes out as ["N/A"]. *)
Lemma shape_format_placeholders (d : gmap string pyval) :
  YtDlp.well_typed_format d = true →
  ∃ x, YtDlp.shape_format (VDict d) = Returns x ∧
       (d !! "format_id" = None → YtDlp.itag x = "N/A") ∧
       (d !! "ext" = None → YtDlp.ext x = "N/A").
Proof.
  unfold YtDlp.well_typed_format. rewrite !andb_true_iff.
  intros [[[[[[[[[[[[Hid Hw] Hh] Hres] Hvc] Hac] Hext] Hsize] Happrox] Hnote] Hfps]
            Habr] Htbr].
  destruct (default_resolution_typed d Hw Hh) as (dflt & Hdflt & Hdflt_ok).
  destruct (filesize_or_approx_typed d Hsize Happrox) as (size & Hfs & Hfs_ok).
  destruct (required_str _ (absent_or_lookup _ d "format_id" (VStr "N/A") Hid eq_refl))
    as (itag & Hitag & Ritag).
  destruct (required_str _ (absent_or_lookup _ d "ext" (VStr "N/A") Hext eq_refl))
    as (ext & Hext' & Rext).
  destruct (optional_str _ (absent_or_lookup _ d "resolution" dflt Hres Hdflt_ok))
    as (res & Rres).
  destruct (optional_str _ (absent_or_lookup _ d "vcodec" VNone Hvc eq_refl))
    as (vc & Rvc).
  destruct (optional_str _ (absent_or_lookup _ d "acodec" VNone Hac eq_refl))
    as (ac & Rac).
  destruct (optional_int _ Hfs_ok) as (fsz & Rfsz).
  destruct (optional_str _ (absent_or_lookup _ d "format_note" VNone Hnote eq_refl))
    as (note & Rnote).
  destruct (optional_int _ (absent_or_lookup _ d "fps" VNone Hfps eq_refl))
    as (fps & Rfps).
  destruct (optional_float _ (absent_or_lookup _ d "abr" VNone Habr eq_refl))
    as (abr & Rabr).
  destruct (optional_float _ (absent_or_lookup _ d "tbr" VNone Htbr eq_refl))
    as (tbr & Rtbr).
  unfold YtDlp.shape_format. cbn [get]. rewrite bind_Returns, Hdflt.
  rewrite !bind_Returns, Hfs, !bind_Returns.
  rewrite Ritag, bind_Returns, Rres, bind_Returns, Rvc, bind_Returns, Rac, bind_Returns.
  rewrite Rext, bind_Returns, Rfsz, bind_Returns, Rnote, bind_Returns, Rfps, bind_Returns.
  rewrite Rabr, bind_Returns, Rtbr, bind_Returns.
  eexists. split; [done|]. cbn [YtDlp.itag YtDlp.ext]. split; intros Hnone.
  - rewrite Hnone in Hitag. by injection Hitag.
  - rewrite Hnone in Hext'. by injection Hext'.
Qed.

Lemma shape_formats_placeholders (ds : list (gmap string pyval)) :
  Forall (λ e, YtDlp.well_typed_format e = true) ds →
  ∃ xs, YtDlp.shape_formats (VDict <$> ds) = Returns xs ∧
        Forall2 (λ e x, (e !! "format_id" = None → YtDlp.itag x = "N/A") ∧
                        (e !! "ext" = None → YtDlp.ext x = "N/A")) ds xs.
Proof.
  induction 1 as [|e ds He _ (xs & Hxs & IH)]; [by exists []|].
  destruct (shape_format_placeholders e He) as (x & Hx & Hplace).
  exists (x :: xs). cbn [fmap list_fmap YtDlp.shape_formats].
  rewrite Hx, bind_Returns, Hxs, bind_Returns. split; [done|]. by constructor.
Qed.

(** A library result whose fields are missing or well typed is shaped,
    and a missing title, thumbnail or duration comes out as the
    placeholder. *)
Lemma shape_details_placeholders (d : gmap string pyval)
    (formats_info : list YtDlp.VideoFormatInfo) :
  YtDlp.well_typed_info d = true →
  ∃ body, YtDlp.shape_details (VDict d) formats_info = Returns body ∧
          YtDlp.available_formats body = formats_info ∧
          (d !! "title" = None → YtDlp.title body = "Без названия") ∧
          (d !! "thumbnail" = None → YtDlp.thumbnail_url body = "") ∧
          (d !! "duration" = None → YtDlp.duration body = 0).
Proof.
  unfold YtDlp.well_typed_info. rewrite !andb_true_iff.
  intros [[[[Htitle Hthumb] Hdur] Hup] Hdesc].
  destruct (required_str _
              (absent_or_lookup _ d "title" (VStr "Без названия") Htitle eq_refl))
    as (title & Htitle' & Rtitle).
  destruct (required_str _ (absent_or_lookup _ d "thumbnail" (VStr "") Hthumb eq_refl))
    as (thumb & Hthumb' & Rthumb).
  destruct (optional_str _ (absent_or_lookup _ d "uploader" VNone Hup eq_refl))
    as (up & Rup).
  destruct (optional_str _ (absent_or_lookup _ d "description" VNone Hdesc eq_refl))
    as (desc & Rdesc).
  assert (∃ seconds, int (from_option id (VInt 0) (d !! "duration")) = Returns seconds ∧
                     (d !! "duration" = None → seconds = 0)) as (seconds & Rint & Hzero).
  { pose proof (absent_or_lookup _ d "duration" (VInt 0) Hdur eq_refl) as Hv.
    destruct (d !! "duration") as [v|]; [|by exists 0].
    destruct v as [| | |[]| | |]; try discriminate; by eexists. }
  unfold YtDlp.shape_details. cbn [get]. rewrite !bind_Returns, Rint, !bind_Returns.
  rewrite Rtitle, bind_Returns, Rthumb, bind_Returns.
  unfold required at 1. rewrite field_int_int, bind_Returns.
  rewrite Rup, bind_Returns, Rdesc, bind_Returns.
  eexists. split; [done|].
  cbn [YtDlp.available_formats YtDlp.title YtDlp.thumbnail_url YtDlp.duration].
  repeat split; try done; intros Hnone.
  - rewrite Hnone in Htitle'. by injection Htitle'.
  - rewrite Hnone in Hthumb'. by injection Hthumb'.
Qed.

End Placeholders.

Section PlaceholdersEndpoint.
Context `{Runtime} `{YtDlp.YoutubeDL}.
Variable COOKIES_FILE_PATH : string.
Variable cookies_exist : bool.

Local Abbreviation opts_info := (YtDlp.ydl_opts_info COOKIES_FILE_PATH cookies_exist).

(** C9. In the yt-dlp service the shaping never fails on a missing
    field.  When the library result has at least one format and every
    field of the result and of its formats is missing or of the type the
    response model gives it, the video-info endpoint answers 200, and in
    that response a format without [format_id] has itag ["N/A"], a format
    without [ext] has ext ["N/A"], a missing title is ["Без названия"],
    a missing thumbnail is the empty string and a missing duration is 0. *)
Theorem video_info_placeholders
    (url : string) (cs : list YtDlp.call) (d : gmap string pyval)
    (ds : list (gmap string pyval)) :
  url ≠ "" →
  YtDlp.extract_info opts_info url = Returns (VDict d) →
  d !! "formats" = Some (VList (VDict <$> ds)) →
  ds ≠ [] →
  Forall (λ e, YtDlp.well_typed_format e = true) ds →
  YtDlp.well_typed_info d = true →
  ∃ body,
    YtDlp.get_video_information COOKIES_FILE_PATH cookies_exist url cs =
      (Returns body, cs ++ [YtDlp.ExtractInfo opts_info url]) ∧
    (d !! "title" = None → YtDlp.title body = "Без названия") ∧
    (d !! "thumbnail" = None → YtDlp.thumbnail_url body = "") ∧
    (d !! "duration" = None → YtDlp.duration body = 0) ∧
    Forall2 (λ e x, (e !! "format_id" = None → YtDlp.itag x = "N/A") ∧
                    (e !! "ext" = None → YtDlp.ext x = "N/A"))
      ds (YtDlp.available_formats body).
Proof.
  intros Hurl Hinfo Hformats Hne Hds Hd.
  destruct (shape_formats_placeholders ds Hds) as (xs & Hxs & Hplace).
  destruct (shape_details_placeholders d xs Hd)
    as (body & Hbody & Hfi & Htitle & Hthumb & Hdur).
  exists body. rewrite Hfi. repeat split; try done.
  rewrite ytdlp_video_info_run by done.
  unfold YtDlp.get_video_information_try.
  rewrite M_bind_run, (fetch_video_info_dict _ _ _ _ _ Hinfo). unfold lift.
  unfold YtDlp.shape_video_information, YtDlp.shape_info_formats.
  rewrite (truthy_dict_lookup _ _ _ Hformats). cbn [contains getitem].
  rewrite bool_decide_eq_true_2 by eauto. rewrite bind_Returns, Hformats.
  rewrite bind_Returns. cbn [iter]. rewrite bind_Returns, Hxs, bind_Returns.
  destruct xs as [|x xs'].
  - destruct ds; [done|]. inversion Hplace.
  - by rewrite Hbody.
Qed.

End PlaceholdersEndpoint.

(** ** The filename of a download link *)





Section Filename.
Context `{Runtime} `{YtDlp.YoutubeDL}.
Variable COOKIES_FILE_PATH : string.
Variable cookies_exist : bool.

Local Abbreviation opts_download :=
  (YtDlp.ydl_opts_download COOKIES_FILE_PATH cookies_exist).

Lemma call_extract_info_returns (opts : YtDlp.ydl_opts) (url : string)
    (cs cs' : list YtDlp.call) (info : pyval) :
  YtDlp.call_extract_info opts url cs = (Returns info, cs') →
  YtDlp.extract_info opts url = Returns info ∧ cs' = cs ++ [YtDlp.ExtractInfo opts url].
Proof.
  unfold YtDlp.call_extract_info. rewrite M_bind_run. simpl. apply lift_returns.
Qed.

Lemma call_prepare_filename_returns (opts : YtDlp.ydl_opts) (info : pyval)
    (cs cs' : list YtDlp.call) (name : string) :
  YtDlp.call_prepare_filename opts info cs = (Returns name, cs') →
  YtDlp.prepare_filename opts info = Returns name ∧
  cs' = cs ++ [YtDlp.PrepareFilename opts info].
Proof.
  unfold YtDlp.call_prepare_filename. rewrite M_bind_run. simpl. apply lift_returns.
Qed.

(** What a result of the adapter is made of. *)
Lemma get_download_link_blocking_returns (url itag : string)
    (cs cs' : list YtDlp.call) (r : pyval) :
  YtDlp.get_download_link_blocking COOKIES_FILE_PATH cookies_exist url itag cs
    = (Returns r, cs') →
  ∃ info sel u templated name,
    YtDlp.extract_info (opts_download itag) url = Returns info ∧
    YtDlp.select_format info itag = Returns sel ∧
    truthy sel = true ∧ contains "url" sel = Returns true ∧
    getitem sel "url" = Returns u ∧
    YtDlp.prepare_filename (opts_download itag) info = Returns templated ∧
    (if substring_of "." templated then name = templated
     else YtDlp.fallback_filename info sel = Returns name) ∧
    slice_prefix u = Returns tt ∧
    r = VDict (<["url" := u]> (<["filename" := VStr name]> ∅)) ∧
    cs' = cs ++ [YtDlp.ExtractInfo (opts_download itag) url;
                 YtDlp.PrepareFilename (opts_download itag) info].
Proof.
  rewrite ytdlp_blocking_run.
  destruct (YtDlp.get_download_link_blocking_try _ _ url itag cs) as [[r'|e] cs1] eqn:Htry;
    [|discriminate].
  intros [= -> ->]. unfold YtDlp.get_download_link_blocking_try in Htry.
  apply M_bind_returns in Htry as (info & cs1 & Hinfo & Htry).
  apply call_extract_info_returns in Hinfo as [Hinfo ->].
  apply M_bind_returns in Htry as (sel & cs1 & Hsel & Htry).
  apply lift_returns in Hsel as [Hsel ->].
  apply M_bind_returns in Htry as (has_url & cs1 & Hhas & Htry).
  destruct has_url; [|discriminate].
  destruct (truthy sel) eqn:Htruthy; [|discriminate].
  apply lift_returns in Hhas as [Hhas ->].
  apply M_bind_returns in Htry as (u & cs1 & Hu & Htry).
  apply lift_returns in Hu as [Hu ->].
  apply M_bind_returns in Htry as (templated & cs1 & Htemplated & Htry).
  apply call_prepare_filename_returns in Htemplated as [Htemplated ->].
  apply M_bind_returns in Htry as (name & cs2 & Hname & Htry).
  apply M_bind_returns in Htry as ([] & cs3 & Hslice & Htry).
  apply lift_returns in Hslice as [Hslice ->]. injection Htry as <- <-.
  exists info, sel, u, templated, name. repeat split; try done.
  - destruct (substring_of "." templated); simpl in Hname.
    + by injection Hname as ->.
    + by apply lift_returns in Hname as [-> _].
  - destruct (substring_of "." templated); simpl in Hname.
    + injection Hname as _ <-. by rewrite <- app_assoc.
    + apply lift_returns in Hname as [_ ->]. by rewrite <- app_assoc.
Qed.

Lemma shape_download_response_returns (u : pyval) (name : string)
    (resp : YtDlp.DownloadResponse) :
  YtDlp.shape_download_response
    (VDict (<["url" := u]> (<["filename" := VStr name]> ∅))) = Returns resp →
  YtDlp.filename resp = Some name ∧
  optional field_str u = Returns (YtDlp.direct_download_url resp).
Proof.
  assert ((<["url" := u]> (<["filename" := VStr name]> ∅) : gmap string pyval)
            !! "url" = Some u) as Hu by apply lookup_insert_eq.
  assert ((<["url" := u]> (<["filename" := VStr name]> ∅) : gmap string pyval)
            !! "filename" = Some (VStr name)) as Hf.
  { rewrite lookup_insert_ne by discriminate. apply lookup_insert_eq. }
  unfold YtDlp.shape_download_response.
  rewrite (truthy_dict_lookup _ _ _ Hu). cbn [contains getitem].
  rewrite Hu, Hf. rewrite !bool_decide_eq_true_2 by eauto. rewrite !bind_Returns.
  intros Hrun. invert_binds Hrun. cbn [optional] in Ha1.
  rewrite field_str_str in Ha1. injection Ha1 as <-. by injection Hrun as <-.
Qed.


End Filename.

(** ** Empty parameters *)

Section Validation.
Context `{Runtime} `{YtDlp.YoutubeDL} `{Pytube.PytubeLib} `{Rutube.RutubeLib}.
Variable COOKIES_FILE_PATH : string.
Variable cookies_exist : bool.

Lemma rutube_calls_library (video_url : string) (w : Rutube.world) :
  Rutube.calls (Rutube.get_video_info video_url w).2 = Rutube.calls w ++ [video_url].
Proof.
  unfold Rutube.get_video_info, Rutube.call_Rutube, Rutube.open_wb, Rutube.write.
  unfold_monad. cbn.
  destruct (Rutube.Rutube_new video_url) as [[[v|]|e]|e]; cbn; try done.
  by destruct (Rutube.failure v).
Qed.

(** C7, as the code has it.  In the yt-dlp and pytube services a
    request whose [url] is empty, or on the download-link endpoint whose
    [url] or [itag] is empty, is answered 400 and leaves the record of
    library calls as it was.  The rutube service has no such check: it
    hands [video_url] to the library whatever it is. *)
Theorem empty_parameter_is_400
    (url itag : string) (cs : list YtDlp.call) (ps : list string) (w : Rutube.world) :
  YtDlp.get_video_information COOKIES_FILE_PATH cookies_exist "" cs =
    (Raises (HTTPException 400 "Параметр 'url' не может быть пустым."), cs)
  ∧ YtDlp.get_download_link COOKIES_FILE_PATH cookies_exist "" itag cs =
    (Raises (HTTPException 400 "Параметры 'url' и 'itag' обязательны."), cs)
  ∧ YtDlp.get_download_link COOKIES_FILE_PATH cookies_exist url "" cs =
    (Raises (HTTPException 400 "Параметры 'url' и 'itag' обязательны."), cs)
  ∧ Pytube.get_video_information "" ps =
    (Raises (HTTPException 400 "URL параметр не может быть пустым."), ps)
  ∧ Pytube.get_download_link "" itag ps =
    (Raises (HTTPException 400 "Параметры 'url' и 'itag' не могут быть пустыми."), ps)
  ∧ Pytube.get_download_link url "" ps =
    (Raises (HTTPException 400 "Параметры 'url' и 'itag' не могут быть пустыми."), ps)
  ∧ Rutube.calls (Rutube.get_video_info url w).2 = Rutube.calls w ++ [url].
Proof.
  repeat split; try done.
  - unfold YtDlp.get_download_link. simpl. by rewrite orb_true_r.
  - unfold Pytube.get_download_link. simpl. by rewrite orb_true_r.
  - apply rutube_calls_library.
Qed.

End Validation.

(** C7 as stated fails in the rutube service: on an empty [video_url]
    the response is not a 400 and the library has been called. *)
Lemma rutube_empty_url_reaches_library :
  ¬ (∀ (L : Rutube.RutubeLib) (w : Rutube.world),
       status (respond (Rutube.get_video_info "" w).1) = Some 400 ∧
       Rutube.calls (Rutube.get_video_info "" w).2 = Rutube.calls w).
Proof.
  intros Hall.
  destruct (Hall Sample.sample_rutube Sample.empty_world) as [_ Hcalls].
  discriminate Hcalls.
Qed.

(** ** The file of the rutube service *)

Section SharedFile.
Context `{Rutube.RutubeLib}.

Lemma rutube_run (video_url : string) (w : Rutube.world) (v : Rutube.video) :
  Rutube.Rutube_new video_url = Returns (Returns (Some v)) →
  Rutube.failure v = None →
  Rutube.get_video_info video_url w =
    (Returns {| Rutube.path := "video.mp4"; Rutube.filename := "video.mp4";
                Rutube.media_type := "video/mp4" |},
     {| Rutube.files := <["video.mp4" := Rutube.written v]> (Rutube.files w);
        Rutube.calls := Rutube.calls w ++ [video_url] |}).
Proof.
  intros Hnew Hok.
  unfold Rutube.get_video_info, Rutube.call_Rutube, Rutube.open_wb, Rutube.write.
  unfold_monad. cbn. rewrite Hnew. cbn. rewrite Hok. cbn.
  by rewrite lookup_insert_eq, insert_insert_eq.
Qed.

Lemma rutube_response_path (video_url : string) (w w' : Rutube.world)
    (r : Rutube.FileResponse) :
  Rutube.get_video_info video_url w = (Returns r, w') → Rutube.path r = "video.mp4".
Proof.
  unfold Rutube.get_video_info, Rutube.call_Rutube, Rutube.open_wb, Rutube.write.
  unfold_monad. cbn.
  destruct (Rutube.Rutube_new video_url) as [[[v|]|e]|e]; cbn; try discriminate.
  destruct (Rutube.failure v); [discriminate|]. by intros [= <- _].
Qed.

Lemma rutube_other_files (video_url : string) (w : Rutube.world) (name : string) :
  name ≠ "video.mp4" →
  Rutube.files (Rutube.get_video_info video_url w).2 !! name = Rutube.files w !! name.
Proof.
  intros Hname.
  unfold Rutube.get_video_info, Rutube.call_Rutube, Rutube.open_wb, Rutube.write.
  unfold_monad. cbn.
  destruct (Rutube.Rutube_new video_url) as [[[v|]|e]|e]; cbn;
    rewrite ?lookup_insert_ne by done; try done.
  destruct (Rutube.failure v); cbn; by rewrite !lookup_insert_ne by done.
Qed.

(** C8. In the rutube service every request, whatever its URL, writes
    to the one path ['video.mp4'] and to no other, and every response is
    a [FileResponse] for that same path.  So the file is shared: when
    two requests succeed and the handler of the second runs before the
    response of the first is sent, the first response carries the video
    of the second. *)
Theorem rutube_requests_share_one_file :
  (∀ (video_url : string) (w w' : Rutube.world) (r : Rutube.FileResponse),
     Rutube.get_video_info video_url w = (Returns r, w') →
     Rutube.path r = "video.mp4")
  ∧
  (∀ (video_url : string) (w : Rutube.world) (name : string),
     name ≠ "video.mp4" →
     Rutube.files (Rutube.get_video_info video_url w).2 !! name
       = Rutube.files w !! name)
  ∧
  (∀ (url1 url2 : string) (v1 v2 : Rutube.video) (w : Rutube.world),
     Rutube.Rutube_new url1 = Returns (Returns (Some v1)) → Rutube.failure v1 = None →
     Rutube.Rutube_new url2 = Returns (Returns (Some v2)) → Rutube.failure v2 = None →
     ∃ r1 r2 w1 w2,
       Rutube.get_video_info url1 w = (Returns r1, w1) ∧
       Rutube.get_video_info url2 w1 = (Returns r2, w2) ∧
       Rutube.path r1 = Rutube.path r2 ∧
       Rutube.serve r1 w1 = Some (Rutube.written v1) ∧
       Rutube.serve r1 w2 = Some (Rutube.written v2) ∧
       Rutube.serve r2 w2 = Some (Rutube.written v2)).
Proof.
  split; [exact rutube_response_path|]. split; [exact rutube_other_files|].
  intros url1 url2 v1 v2 w Hnew1 Hok1 Hnew2 Hok2.
  do 4 eexists. split; [by apply rutube_run|]. split; [by apply rutube_run|].
  unfold Rutube.serve. cbn. by rewrite !lookup_insert_eq.
Qed.

End SharedFile.

(** ** The theorems at work on the sample libraries *)

Section Witnesses.
Import Sample.

Lemma select_format_exact_match_witness :
  YtDlp.select_format info_clip "18" = Returns format_18 ∧
  ∃ d, info_clip = VDict d ∧
    let top_level := if YtDlp.has_format_id "18" info_clip then info_clip else VNone in
    match d !! "formats" with
    | Some formats =>
        ∃ fs, iter formats = Returns fs ∧
          ((∃ before f after, fs = before ++ f :: after ∧
              Forall (λ x, YtDlp.has_format_id "18" x = false) before ∧
              YtDlp.has_format_id "18" f = true ∧ format_18 = f)
           ∨ (Forall (λ x, YtDlp.has_format_id "18" x = false) fs ∧
              format_18 = top_level))
    | None => format_18 = top_level
    end.
Proof.
  split; [vm_compute; reflexivity|].
  apply select_format_exact_match. vm_compute; reflexivity.
Defined.

Lemma pytube_rewraps_http_exception_witness :
  Pytube.get_video_information "https://youtu.be/song" [] =
    (Raises (HTTPException 500
       ("Ошибка сервера при обработке URL: " +:+
        exn_str (HTTPException 404 Pytube.detail_404_formats))),
     ["https://youtu.be/song"])
  ∧ Pytube.get_download_link "https://youtu.be/clip" "23" [] =
    (Raises (HTTPException 500
       ("Ошибка сервера при получении ссылки: " +:+
        exn_str (HTTPException 404 (Pytube.detail_404_itag "23")))),
     ["https://youtu.be/clip"]).
Proof.
  split.
  - apply (pytube_rewraps_http_exception "https://youtu.be/song" "23" []
             ["https://youtu.be/song"] 404 Pytube.detail_404_formats);
      [discriminate | discriminate | vm_compute; reflexivity].
  - apply (pytube_rewraps_http_exception "https://youtu.be/clip" "23" []
             ["https://youtu.be/clip"] 404 (Pytube.detail_404_itag "23"));
      [discriminate | discriminate | vm_compute; reflexivity].
Defined.

Lemma pytube_video_info_zero_formats_is_500_witness :
  respond (Pytube.get_video_information "https://youtu.be/song" []).1 =
    HttpError 500
      ("Ошибка сервера при обработке URL: " +:+
       exn_str (HTTPException 404 Pytube.detail_404_formats)).
Proof.
  rewrite (pytube_video_info_zero_formats_is_500 "https://youtu.be/song" [] yt_audio);
    [reflexivity | discriminate | reflexivity | vm_compute; reflexivity].
Defined.

Lemma ytdlp_download_link_unresolved_is_500_witness :
  respond (YtDlp.get_download_link "cookies.txt" false "https://youtu.be/clip" "22" []).1 =
    HttpError 500
      ("Непредвиденная ошибка сервера при получении ссылки: " +:+
       exn_str (HTTPException 404 (YtDlp.detail_404_link "22"))).
Proof.
  rewrite (ytdlp_download_link_unresolved_is_500 "cookies.txt" false
             "https://youtu.be/clip" "22" [] info_clip VNone);
    [reflexivity | discriminate | discriminate | reflexivity
    | vm_compute; reflexivity | by left].
Defined.

Lemma video_info_200_lists_every_format_witness :
  (∃ body, (YtDlp.get_video_information "cookies.txt" false "https://youtu.be/clip" []).1
             = Returns body ∧
           length (YtDlp.available_formats body) = 2%nat)
  ∧ (∃ body, (Pytube.get_video_information "https://youtu.be/clip" []).1 = Returns body ∧
             length (Pytube.available_formats body) = 2%nat).
Proof.
  destruct (video_info_200_lists_every_format "cookies.txt" false) as [Hytdlp Hpytube].
  split.
  - destruct (YtDlp.get_video_information "cookies.txt" false "https://youtu.be/clip" [])
      as [o cs'] eqn:Hrun.
    assert (∃ body, o = Returns body) as [body ->].
    { apply (f_equal fst) in Hrun. vm_compute in Hrun. subst o. eexists. reflexivity. }
    exists body. split; [reflexivity|].
    destruct (Hytdlp _ _ _ _ Hrun) as (d & fs & Hinfo & Hfs & _ & Hlen & _).
    rewrite Hlen. vm_compute in Hinfo. injection Hinfo as <-.
    vm_compute in Hfs. injection Hfs as <-. reflexivity.
  - destruct (Pytube.get_video_information "https://youtu.be/clip" [])
      as [o cs'] eqn:Hrun.
    assert (∃ body, o = Returns body) as [body ->].
    { apply (f_equal fst) in Hrun. vm_compute in Hrun. subst o. eexists. reflexivity. }
    exists body. split; [reflexivity|].
    destruct (Hpytube _ _ _ _ Hrun) as (yt & streams & Hnew & Hquery & _ & Hlen & _).
    rewrite Hlen. vm_compute in Hnew. injection Hnew as <-.
    vm_compute in Hquery. injection Hquery as <-. reflexivity.
Defined.


Lemma rutube_requests_share_one_file_witness :
  ∃ r1 r2 w1 w2,
    Rutube.get_video_info "https://rutube.ru/video/a/" empty_world = (Returns r1, w1) ∧
    Rutube.get_video_info "https://rutube.ru/video/b/" w1 = (Returns r2, w2) ∧
    Rutube.path r1 = Rutube.path r2 ∧
    Rutube.serve r1 w1 = Some [Byte.x0a; Byte.x0a] ∧
    Rutube.serve r1 w2 = Some [Byte.x0b].
Proof.
  destruct rutube_requests_share_one_file as (_ & _ & Hshare).
  destruct (Hshare "https://rutube.ru/video/a/" "https://rutube.ru/video/b/"
              video_a video_b empty_world eq_refl eq_refl eq_refl eq_refl)
    as (r1 & r2 & w1 & w2 & H1 & H2 & Hpath & Hs1 & Hs2 & _).
  by exists r1, r2, w1, w2.
Defined.

Lemma video_info_placeholders_witness :
  ∃ body,
    respond (YtDlp.get_video_information "cookies.txt" false "https://youtu.be/bare" []).1
      = Ok200 body ∧
    YtDlp.title body = "Без названия" ∧ YtDlp.thumbnail_url body = "" ∧
    YtDlp.duration body = 0 ∧
    (YtDlp.itag <$> YtDlp.available_formats body) = ["N/A"] ∧
    (YtDlp.ext <$> YtDlp.available_formats body) = ["N/A"].
Proof.
  destruct (video_info_placeholders "cookies.txt" false "https://youtu.be/bare" []
              (<["formats" := VList [format_bare]]> ∅) [∅])
    as (body & Hrun & Htitle & Hthumb & Hdur & Hformats);
    [discriminate | reflexivity | reflexivity | discriminate
    | by repeat constructor | reflexivity |].
  exists body. rewrite Hrun. split; [done|].
  rewrite Htitle, Hthumb, Hdur by reflexivity. repeat split.
  - inversion Hformats as [|? x ? xs [Hitag _] Hrest]; subst. inversion Hrest; subst.
    cbn. by rewrite Hitag.
  - inversion Hformats as [|? x ? xs [_ Hext] Hrest]; subst. inversion Hrest; subst.
    cbn. by rewrite Hext.
Defined.

Lemma pytube_download_link_non_integer_itag_witness :
  respond (Pytube.get_download_link "https://youtu.be/clip" "hd" []).1 =
    HttpError 500 ("Ошибка сервера при получении ссылки: " +:+ exn_str ValueError).
Proof.
  destruct (pytube_download_link_non_integer_itag "https://youtu.be/clip" "hd" [])
    as (e & -> & ->); [discriminate | discriminate | reflexivity |].
  reflexivity.
Defined.

End Witnesses.

(** ** Which exceptions the pure steps raise *)

Lemma bind_raises {A B} (o : outcome A) (k : A → outcome B) (e : exn) :
  o ≫= k = Raises e → o = Raises e ∨ ∃ a, o = Returns a ∧ k a = Raises e.
Proof.
  destruct o as [a|e']; intros Hr; [right; eauto|].
  left. change (@Raises B e' = Raises e) in Hr. by injection Hr as ->.
Qed.

Lemma get_raises (v : pyval) (k : string) (dflt : pyval) (e : exn) :
  get v k dflt = Raises e → e = AttributeError.
Proof. by destruct v; intros [=]. Qed.

Lemma getitem_raises (v : pyval) (k : string) (e : exn) :
  getitem v k = Raises e → is_http e = false.
Proof. destruct v; try by intros [= <-]. simpl. by destruct (_ !! k); intros [= <-]. Qed.

Lemma contains_raises (k : string) (v : pyval) (e : exn) :
  contains k v = Raises e → e = TypeError.
Proof. by destruct v; intros [=]. Qed.

Lemma iter_raises (v : pyval) (e : exn) : iter v = Raises e → e = TypeError.
Proof. by destruct v; intros [=]. Qed.

Lemma slice_prefix_raises (v : pyval) (e : exn) : slice_prefix v = Raises e → e = TypeError.
Proof. by destruct v; intros [=]. Qed.

Section Raises.
Context `{Runtime}.

Lemma int_raises (v : pyval) (e : exn) : int v = Raises e → is_http e = false.
Proof.
  destruct v as [| | |[]|s| |]; simpl; try by intros [= <-].
  by destruct (int_of_str s); intros [= <-].
Qed.

Lemma required_raises {A} (field : pyval → option A) (v : pyval) (e : exn) :
  required field v = Raises e → e = ValidationError.
Proof. unfold required. by destruct (field v); intros [=]. Qed.

Lemma optional_raises {A} (field : pyval → option A) (v : pyval) (e : exn) :
  optional field v = Raises e → e = ValidationError.
Proof.
  unfold optional. destruct v; try (by intros [=]);
    (match goal with |- context [field ?x] => destruct (field x) end; by intros [=]).
Qed.

Lemma optional_returns_some {A} (field : pyval → option A) (v : pyval) (o : option A) :
  optional field v = Returns o → v ≠ VNone → is_Some o.
Proof.
  unfold optional. destruct v; try done;
    (match goal with |- context [field ?x] => destruct (field x) end;
     intros [= <-] _; eauto).
Qed.

End Raises.

(** Splits a hypothesis [H : o ≫= k = Raises e] along the binds and
    closes the cases in which a primitive step raised. *)
Ltac raised_by_step H :=
  first
    [ apply get_raises in H; by subst
    | apply getitem_raises in H; done
    | apply contains_raises in H; by subst
    | apply iter_raises in H; by subst
    | apply slice_prefix_raises in H; by subst
    | apply int_raises in H; done
    | apply required_raises in H; by subst
    | apply optional_raises in H; by subst
    | by injection H as <- ].

Ltac split_raises H :=
  repeat (let a := fresh "a" in
          let Ha := fresh "Ha" in
          apply bind_raises in H as [H|(a & Ha & H)]; [raised_by_step H|]).

Section ShapingRaises.
Context `{Runtime}.

Lemma default_resolution_raises (f_data : pyval) (e : exn) :
  YtDlp.default_resolution f_data = Raises e → is_http e = false.
Proof.
  unfold YtDlp.default_resolution. intros Hr.
  apply bind_raises in Hr as [Hr|(w & _ & Hr)]; [raised_by_step Hr|].
  destruct (truthy w); [|discriminate].
  apply bind_raises in Hr as [Hr|(h & _ & Hr)]; [raised_by_step Hr|].
  destruct (truthy h); [|discriminate]. split_raises Hr. discriminate.
Qed.

Lemma filesize_or_approx_raises (f_data : pyval) (e : exn) :
  YtDlp.filesize_or_approx f_data = Raises e → is_http e = false.
Proof.
  unfold YtDlp.filesize_or_approx. intros Hr.
  apply bind_raises in Hr as [Hr|(size & _ & Hr)]; [raised_by_step Hr|].
  destruct (truthy size); [discriminate|]. raised_by_step Hr.
Qed.

Lemma shape_format_raises (f_data : pyval) (e : exn) :
  YtDlp.shape_format f_data = Raises e → is_http e = false.
Proof.
  unfold YtDlp.shape_format. intros Hr.
  apply bind_raises in Hr as [Hr|(v_itag & _ & Hr)]; [raised_by_step Hr|].
  apply bind_raises in Hr as [Hr|(dflt & _ & Hr)];
    [by eapply default_resolution_raises|].
  do 4 (apply bind_raises in Hr as [Hr|(? & _ & Hr)]; [raised_by_step Hr|]).
  apply bind_raises in Hr as [Hr|(size & _ & Hr)];
    [by eapply filesize_or_approx_raises|].
  split_raises Hr. discriminate.
Qed.

Lemma shape_formats_raises (fs : list pyval) (e : exn) :
  YtDlp.shape_formats fs = Raises e → is_http e = false.
Proof.
  induction fs as [|f rest IH]; simpl; [discriminate|]. intros Hr.
  apply bind_raises in Hr as [Hr|(x & _ & Hr)]; [by eapply shape_format_raises|].
  apply bind_raises in Hr as [Hr|(xs & _ & Hr)]; [by apply IH|]. discriminate.
Qed.

Lemma shape_info_formats_raises (info_dict : pyval) (e : exn) :
  YtDlp.shape_info_formats info_dict = Raises e → is_http e = false.
Proof.
  unfold YtDlp.shape_info_formats. intros Hr.
  apply bind_raises in Hr as [Hr|(has_formats & _ & Hr)].
  { destruct (truthy info_dict); [raised_by_step Hr|discriminate]. }
  destruct has_formats; [|discriminate].
  do 2 (apply bind_raises in Hr as [Hr|(? & _ & Hr)]; [raised_by_step Hr|]).
  by eapply shape_formats_raises.
Qed.

Lemma shape_details_raises (info_dict : pyval) (fi : list YtDlp.VideoFormatInfo)
    (e : exn) :
  YtDlp.shape_details info_dict fi = Raises e → is_http e = false.
Proof.
  unfold YtDlp.shape_details. intros Hr. split_raises Hr. discriminate.
Qed.

Lemma check_youtube_type_raises (info_dict : pyval) (e : exn) :
  YtDlp.check_youtube_type info_dict = Raises e → is_http e = false.
Proof.
  unfold YtDlp.check_youtube_type. intros Hr.
  apply bind_raises in Hr as [Hr|(has_type & _ & Hr)]; [raised_by_step Hr|].
  destruct has_type; [|discriminate].
  apply bind_raises in Hr as [Hr|(t & _ & Hr)]; [raised_by_step Hr|].
  destruct (eq_str t "youtube"); [|discriminate]. split_raises Hr. discriminate.
Qed.

(** The only [HTTPException] of the shaping of video information is
    its own 404. *)
Lemma shape_video_information_raises (info_dict : pyval) (e : exn) :
  YtDlp.shape_video_information info_dict = Raises e →
  is_http e = false ∨ e = HTTPException 404 YtDlp.detail_404_formats.
Proof.
  unfold YtDlp.shape_video_information. intros Hr.
  apply bind_raises in Hr as [Hr|(fi & _ & Hr)];
    [left; by eapply shape_info_formats_raises|].
  destruct fi as [|x xs]; [|left; by eapply shape_details_raises].
  apply bind_raises in Hr as [Hr|(? & _ & Hr)];
    [left; by eapply check_youtube_type_raises|].
  right. by injection Hr.
Qed.

Lemma shape_download_response_raises (result : pyval) (e : exn) :
  YtDlp.shape_download_response result = Raises e →
  is_http e = false ∨ ∃ d, e = HTTPException 500 d.
Proof.
  unfold YtDlp.shape_download_response. intros Hr.
  apply bind_raises in Hr as [Hr|(has_url & _ & Hr)].
  { left. destruct (truthy result); [raised_by_step Hr|discriminate]. }
  apply bind_raises in Hr as [Hr|(has_filename & _ & Hr)].
  { left. destruct has_url; [raised_by_step Hr|discriminate]. }
  destruct has_filename; [|right; injection Hr as <-; eauto].
  left. split_raises Hr. discriminate.
Qed.

End ShapingRaises.

(** ** The adapters and endpoints of the yt-dlp service as a whole *)

Section YtDlpService.
Context `{Runtime} `{YtDlp.YoutubeDL}.
Variable COOKIES_FILE_PATH : string.
Variable cookies_exist : bool.

Local Abbreviation opts_info := (YtDlp.ydl_opts_info COOKIES_FILE_PATH cookies_exist).
Local Abbreviation opts_download :=
  (YtDlp.ydl_opts_download COOKIES_FILE_PATH cookies_exist).
Local Abbreviation fetch_video_info_blocking :=
  (YtDlp.fetch_video_info_blocking COOKIES_FILE_PATH cookies_exist).
Local Abbreviation get_download_link_blocking_try :=
  (YtDlp.get_download_link_blocking_try COOKIES_FILE_PATH cookies_exist).
Local Abbreviation get_download_link_blocking :=
  (YtDlp.get_download_link_blocking COOKIES_FILE_PATH cookies_exist).
Local Abbreviation get_video_information :=
  (YtDlp.get_video_information COOKIES_FILE_PATH cookies_exist).
Local Abbreviation get_download_link :=
  (YtDlp.get_download_link COOKIES_FILE_PATH cookies_exist).

Lemma fetch_video_info_run (url : string) (cs : list YtDlp.call) :
  fetch_video_info_blocking url cs =
    (match YtDlp.extract_info opts_info url with
     | Returns (VDict d) => Returns (VDict d)
     | Returns _ =>
         Raises (HTTPException 500
           ("Непредвиденная ошибка сервера при обработке URL: " +:+
            exn_str AttributeError))
     | Raises (DownloadError m) =>
         Raises (HTTPException 500
           ("Ошибка при получении информации от YouTube: " +:+
            exn_str (DownloadError m)))
     | Raises e =>
         Raises (HTTPException 500
           ("Непредвиденная ошибка сервера при обработке URL: " +:+ exn_str e))
     end, cs ++ [YtDlp.ExtractInfo opts_info url]).
Proof.
  unfold YtDlp.fetch_video_info_blocking, YtDlp.fetch_video_info_try,
    YtDlp.call_extract_info. unfold_monad.
  destruct (YtDlp.extract_info opts_info url) as [v|e]; simpl.
  - by destruct v.
  - by destruct e.
Qed.

(** X1. The adapter [fetch_video_info_blocking] calls the library
    exactly once and either returns the library's dict as it is or raises
    an [HTTPException] with status 500: with the detail for a
    [DownloadError] when the library raised one, and with the detail for
    an unexpected error otherwise.  A library result that is not a dict,
    [None] included, is such an unexpected error, because the log message
    calls [info_dict.get('title')] inside the [try]. *)
Theorem fetch_video_info_blocking_outcomes (url : string) (cs : list YtDlp.call) :
  (fetch_video_info_blocking url cs).2 = cs ++ [YtDlp.ExtractInfo opts_info url] ∧
  (fetch_video_info_blocking url cs).1 =
    match YtDlp.extract_info opts_info url with
    | Returns (VDict d) => Returns (VDict d)
    | Returns _ =>
        Raises (HTTPException 500
          ("Непредвиденная ошибка сервера при обработке URL: " +:+
           exn_str AttributeError))
    | Raises (DownloadError m) =>
        Raises (HTTPException 500
          ("Ошибка при получении информации от YouTube: " +:+
           exn_str (DownloadError m)))
    | Raises e =>
        Raises (HTTPException 500
          ("Непредвиденная ошибка сервера при обработке URL: " +:+ exn_str e))
    end.
Proof.
  unfold YtDlp.fetch_video_info_blocking, YtDlp.fetch_video_info_try,
    YtDlp.call_extract_info. unfold_monad.
  destruct (YtDlp.extract_info opts_info url) as [v|e]; simpl.
  - by destruct v.
  - by destruct e.
Qed.

Lemma fetch_video_info_raises (url : string) (cs cs' : list YtDlp.call) (e : exn) :
  fetch_video_info_blocking url cs = (Raises e, cs') → ∃ d, e = HTTPException 500 d.
Proof.
  rewrite fetch_video_info_run.
  destruct (YtDlp.extract_info opts_info url) as [v|e'].
  - destruct v; intros [= <- _]; eauto.
  - destruct e'; intros [= <- _]; eauto.
Qed.

Lemma get_video_information_try_run (url : string) (cs : list YtDlp.call) :
  YtDlp.get_video_information_try COOKIES_FILE_PATH cookies_exist url cs =
    (match (fetch_video_info_blocking url cs).1 with
     | Returns info_dict => YtDlp.shape_video_information info_dict
     | Raises e => Raises e
     end, cs ++ [YtDlp.ExtractInfo opts_info url]).
Proof.
  unfold YtDlp.get_video_information_try. rewrite M_bind_run, fetch_video_info_run.
  cbn [fst]. by destruct (YtDlp.extract_info opts_info url) as [[]|[]].
Qed.

(** X2. The video-info endpoint of the yt-dlp service never lets an
    exception escape: every request is answered with status 200, 400,
    404 or 500. *)
Theorem ytdlp_video_info_statuses (url : string) (cs : list YtDlp.call) :
  ∃ c, status (respond (get_video_information url cs).1) = Some c ∧
       (c = 200 ∨ c = 400 ∨ c = 404 ∨ c = 500).
Proof.
  destruct (decide (url = "")) as [->|Hurl]; [exists 400; auto|].
  rewrite ytdlp_video_info_run, get_video_information_try_run by done.
  destruct (fetch_video_info_blocking url cs) as [[info|e] cs1] eqn:Hfetch; cbn [fst].
  - destruct (YtDlp.shape_video_information info) as [body|e] eqn:Hshape;
      [exists 200; auto|].
    destruct (shape_video_information_raises _ _ Hshape) as [He| ->];
      [|exists 404; auto].
    exists 500. by destruct e; auto.
  - apply fetch_video_info_raises in Hfetch as [d ->]. exists 500. auto.
Qed.

(** X3. Whatever the outcome, a video-info request with a non-empty
    URL makes exactly one call to the library, [extract_info] with the
    options for information (no ['format'], the cookie file exactly when
    it exists), and a request with an empty URL makes none: nothing is
    retried and nothing is cached. *)
Theorem ytdlp_video_info_calls_once (url : string) (cs : list YtDlp.call) :
  (get_video_information url cs).2 =
    if decide (url = "") then cs else cs ++ [YtDlp.ExtractInfo opts_info url].
Proof.
  destruct (decide (url = "")) as [->|Hurl]; [done|].
  rewrite ytdlp_video_info_run, get_video_information_try_run by done.
  by destruct (fetch_video_info_blocking url cs).1 as [info|e];
    [destruct (YtDlp.shape_video_information info)|].
Qed.

Lemma get_download_link_blocking_raises (url itag : string)
    (cs cs' : list YtDlp.call) (e : exn) :
  get_download_link_blocking url itag cs = (Raises e, cs') → ∃ d, e = HTTPException 500 d.
Proof.
  rewrite ytdlp_blocking_run.
  destruct (get_download_link_blocking_try url itag cs) as [[r|e'] cs1]; [discriminate|].
  intros [= <- _]. eauto.
Qed.

(** X4. The download-link endpoint of the yt-dlp service never lets an
    exception escape either, and its only statuses are 200, 400 and 500:
    no request at all is answered 404. *)
Theorem ytdlp_download_link_statuses (url itag : string) (cs : list YtDlp.call) :
  ∃ c, status (respond (get_download_link url itag cs).1) = Some c ∧
       (c = 200 ∨ c = 400 ∨ c = 500).
Proof.
  destruct (decide (url = "")) as [->|Hurl]; [exists 400; auto|].
  destruct (decide (itag = "")) as [->|Hitag].
  { exists 400. unfold YtDlp.get_download_link. cbn. rewrite orb_true_r. auto. }
  rewrite ytdlp_download_link_run by done. unfold YtDlp.get_download_link_try.
  rewrite M_bind_run.
  destruct (get_download_link_blocking url itag cs) as [[r|e] cs1] eqn:Hblocking.
  - unfold lift.
    destruct (YtDlp.shape_download_response r) as [resp|e] eqn:Hshape;
      [exists 200; auto|].
    exists 500. destruct (shape_download_response_raises _ _ Hshape) as [He|[d ->]];
      [by destruct e; auto|auto].
  - apply get_download_link_blocking_raises in Hblocking as [d ->]. exists 500. auto.
Qed.

Lemma get_download_link_blocking_try_calls (url itag : string) (cs : list YtDlp.call) :
  (get_download_link_blocking_try url itag cs).2
    = cs ++ [YtDlp.ExtractInfo (opts_download itag) url]
  ∨ ∃ info, YtDlp.extract_info (opts_download itag) url = Returns info ∧
            (get_download_link_blocking_try url itag cs).2
              = cs ++ [YtDlp.ExtractInfo (opts_download itag) url;
                       YtDlp.PrepareFilename (opts_download itag) info].
Proof.
  unfold YtDlp.get_download_link_blocking_try, YtDlp.call_extract_info,
    YtDlp.call_prepare_filename. unfold_monad. cbn.
  destruct (YtDlp.extract_info (opts_download itag) url) as [info|e]; [|by left].
  destruct (YtDlp.select_format info itag) as [sel|e]; [|by left].
  destruct (truthy sel); [|by left].
  destruct (contains "url" sel) as [[]|e]; [|by left|by left].
  destruct (getitem sel "url") as [u|e]; [|by left].
  right. exists info. split; [done|]. rewrite <- app_assoc. cbn.
  destruct (YtDlp.prepare_filename (opts_download itag) info) as [templated|e]; [|done].
  destruct (negb (substring_of "." templated)); cbn.
  - destruct (YtDlp.fallback_filename info sel); [|done].
    by destruct (slice_prefix u).
  - by destruct (slice_prefix u).
Qed.

(** X5. A download-link request with non-empty parameters calls
    [extract_info] exactly once, with ['format'] set to the requested
    itag, and after it [prepare_filename] at most once, on the result of
    that call; a request with an empty parameter calls nothing. *)
Theorem ytdlp_download_link_calls (url itag : string) (cs : list YtDlp.call) :
  (url = "" ∨ itag = "" → (get_download_link url itag cs).2 = cs) ∧
  (url ≠ "" → itag ≠ "" →
   YtDlp.format (opts_download itag) = Some itag ∧
   ((get_download_link url itag cs).2
      = cs ++ [YtDlp.ExtractInfo (opts_download itag) url]
    ∨ ∃ info, YtDlp.extract_info (opts_download itag) url = Returns info ∧
              (get_download_link url itag cs).2
                = cs ++ [YtDlp.ExtractInfo (opts_download itag) url;
                         YtDlp.PrepareFilename (opts_download itag) info])).
Proof.
  split.
  - intros [-> | ->]; [done|]. unfold YtDlp.get_download_link. cbn.
    by rewrite orb_true_r.
  - intros Hurl Hitag. split; [done|].
    rewrite ytdlp_download_link_run by done. unfold YtDlp.get_download_link_try.
    rewrite M_bind_run, ytdlp_blocking_run.
    pose proof (get_download_link_blocking_try_calls url itag cs) as Hcalls.
    destruct (get_download_link_blocking_try url itag cs) as [[r|e] cs1]; cbn in *.
    + unfold lift. by destruct (YtDlp.shape_download_response r).
    + done.
Qed.

(** X6. An exception of the library call reaches the client as a 500
    whose detail is the adapter's, not the endpoint's: the detail for a
    [DownloadError] when the library raised one, the detail for an
    unexpected error for any other exception, each followed by the text
    of the exception. *)
Theorem ytdlp_library_error_details (url itag : string) (cs : list YtDlp.call) (e : exn) :
  url ≠ "" → itag ≠ "" →
  (YtDlp.extract_info opts_info url = Raises e →
   respond (get_video_information url cs).1 =
     HttpError 500
       ((match e with
         | DownloadError _ => "Ошибка при получении информации от YouTube: "
         | _ => "Непредвиденная ошибка сервера при обработке URL: "
         end) +:+ exn_str e))
  ∧
  (YtDlp.extract_info (opts_download itag) url = Raises e →
   respond (get_download_link url itag cs).1 =
     HttpError 500
       ((match e with
         | DownloadError _ => "Ошибка yt-dlp при получении ссылки на скачивание: "
         | _ => "Непредвиденная ошибка сервера при получении ссылки: "
         end) +:+ exn_str e)).
Proof.
  intros Hurl Hitag. split; intros Hraise.
  - rewrite ytdlp_video_info_run, get_video_information_try_run by done.
    rewrite fetch_video_info_run, Hraise. cbn [fst]. by destruct e.
  - rewrite ytdlp_download_link_run by done. unfold YtDlp.get_download_link_try.
    rewrite M_bind_run, ytdlp_blocking_run.
    unfold YtDlp.get_download_link_blocking_try, YtDlp.call_extract_info.
    unfold_monad. cbn. rewrite Hraise. by destruct e.
Qed.

End YtDlpService.

(** ** What a shaped format and a shaped response carry *)

Section ShapedValues.
Context `{Runtime}.

Lemma shape_format_returns (d : gmap string pyval) (x : YtDlp.VideoFormatInfo) :
  YtDlp.shape_format (VDict d) = Returns x →
  (∃ dflt, YtDlp.default_resolution (VDict d) = Returns dflt ∧
           optional field_str (from_option id dflt (d !! "resolution"))
             = Returns (YtDlp.resolution x)) ∧
  (∃ size, YtDlp.filesize_or_approx (VDict d) = Returns size ∧
           optional field_int size = Returns (YtDlp.filesize x)).
Proof.
  unfold YtDlp.shape_format. intros Hrun. invert_binds Hrun.
  injection Hrun as <-. cbn [YtDlp.resolution YtDlp.filesize].
  cbn [get] in Ha1. injection Ha1 as <-. split; eauto.
Qed.

Lemma optional_str_value (s : string) : optional field_str (VStr s) = Returns (Some s).
Proof. cbn [optional]. by rewrite field_str_str. Qed.

Lemma optional_int_value (z : Z) : optional field_int (VInt z) = Returns (Some z).
Proof. cbn [optional]. by rewrite field_int_int. Qed.

(** X7. The resolution of a shaped format.  A ['resolution'] of the
    entry wins.  Without that key the resolution is built as
    width ["x"] height when the entry has a truthy ['width'] and a truthy
    ['height'], and is [None] when the width is missing or [None], or the
    width is truthy and the height is missing or [None]. *)
Theorem shape_format_resolution (d : gmap string pyval) (x : YtDlp.VideoFormatInfo) :
  YtDlp.shape_format (VDict d) = Returns x →
  (∀ r, d !! "resolution" = Some (VStr r) → YtDlp.resolution x = Some r) ∧
  (d !! "resolution" = None →
   (∀ w h, d !! "width" = Some w → d !! "height" = Some h →
           truthy w = true → truthy h = true →
           YtDlp.resolution x = Some (str_of w +:+ "x" +:+ str_of h)) ∧
   (d !! "width" = None ∨ d !! "width" = Some VNone → YtDlp.resolution x = None) ∧
   (∀ w, d !! "width" = Some w → truthy w = true →
         d !! "height" = None ∨ d !! "height" = Some VNone →
         YtDlp.resolution x = None)).
Proof.
  intros Hrun.
  apply shape_format_returns in Hrun as [(dflt & Hdflt & Hres) _].
  split.
  { intros r Hr. rewrite Hr in Hres. cbn [from_option id] in Hres.
    rewrite optional_str_value in Hres. by injection Hres. }
  intros Hnone. rewrite Hnone in Hres. cbn [from_option] in Hres.
  unfold YtDlp.default_resolution in Hdflt. cbn [get getitem] in Hdflt.
  rewrite bind_Returns in Hdflt. repeat split.
  - intros w h Hw Hh Tw Th. rewrite Hw, Hh in Hdflt. cbn [from_option id] in Hdflt.
    rewrite Tw, bind_Returns, Th, !bind_Returns in Hdflt. injection Hdflt as <-.
    rewrite optional_str_value in Hres. by injection Hres.
  - intros [Hw|Hw]; rewrite Hw in Hdflt; cbn in Hdflt; injection Hdflt as <-;
      by injection Hres.
  - intros w Hw Tw [Hh|Hh]; rewrite Hw in Hdflt; cbn [from_option id] in Hdflt;
      rewrite Tw, bind_Returns, Hh in Hdflt; cbn in Hdflt; injection Hdflt as <-;
      by injection Hres.
Qed.

(** X8. The file size of a shaped format.  A non-zero ['filesize'] of
    the entry is the size.  When ['filesize'] is missing, [None] or 0,
    the size is ['filesize_approx'] instead, and [None] when that is
    missing too. *)
Theorem shape_format_filesize (d : gmap string pyval) (x : YtDlp.VideoFormatInfo) :
  YtDlp.shape_format (VDict d) = Returns x →
  (∀ n, d !! "filesize" = Some (VInt n) → n ≠ 0 → YtDlp.filesize x = Some n) ∧
  (d !! "filesize" = None ∨ d !! "filesize" = Some VNone ∨
   d !! "filesize" = Some (VInt 0) →
   (∀ n, d !! "filesize_approx" = Some (VInt n) → YtDlp.filesize x = Some n) ∧
   (d !! "filesize_approx" = None → YtDlp.filesize x = None)).
Proof.
  intros Hrun.
  apply shape_format_returns in Hrun as [_ (size & Hsize & Hfs)].
  unfold YtDlp.filesize_or_approx in Hsize. cbn [get] in Hsize.
  rewrite bind_Returns in Hsize. split.
  - intros n Hn Hnz. rewrite Hn in Hsize.
    destruct n as [|p|p]; [done| |]; cbn in Hsize; injection Hsize as <-;
      rewrite optional_int_value in Hfs; by injection Hfs.
  - intros Hfalsy.
    assert (size = from_option id VNone (d !! "filesize_approx")) as ->.
    { destruct Hfalsy as [Hf|[Hf|Hf]]; rewrite Hf in Hsize; cbn in Hsize;
        by injection Hsize. }
    split.
    + intros n Hn. rewrite Hn in Hfs. cbn [from_option id] in Hfs.
      rewrite optional_int_value in Hfs. by injection Hfs.
    + intros Hn. rewrite Hn in Hfs. cbn in Hfs. by injection Hfs.
Qed.

Lemma shape_details_returns (d : gmap string pyval)
    (fi : list YtDlp.VideoFormatInfo) (body : YtDlp.VideoDetails) :
  YtDlp.shape_details (VDict d) fi = Returns body →
  required field_str (from_option id (VStr "Без названия") (d !! "title"))
    = Returns (YtDlp.title body) ∧
  required field_str (from_option id (VStr "") (d !! "thumbnail"))
    = Returns (YtDlp.thumbnail_url body) ∧
  int (from_option id (VInt 0) (d !! "duration")) = Returns (YtDlp.duration body) ∧
  optional field_str (from_option id VNone (d !! "uploader"))
    = Returns (YtDlp.uploader body) ∧
  optional field_str (from_option id VNone (d !! "description"))
    = Returns (YtDlp.description body).
Proof.
  unfold YtDlp.shape_details. intros Hrun. invert_binds Hrun.
  injection Hrun as <-. cbn [get] in *.
  injection Ha as <-. injection Ha0 as <-. injection Ha1 as <-.
  injection Ha3 as <-. injection Ha4 as <-.
  unfold required in Ha7 at 1. rewrite field_int_int in Ha7. injection Ha7 as <-.
  cbn. eauto.
Qed.

Lemma shape_download_response_message (result : pyval) (resp : YtDlp.DownloadResponse) :
  YtDlp.shape_download_response result = Returns resp →
  YtDlp.message resp = "Ссылка на скачивание успешно получена.".
Proof.
  unfold YtDlp.shape_download_response. intros Hrun.
  apply bind_returns in Hrun as (has_url & _ & Hrun).
  apply bind_returns in Hrun as (has_filename & _ & Hrun).
  destruct has_filename; [|discriminate]. invert_binds Hrun. by injection Hrun as <-.
Qed.

End ShapedValues.

Section ShapingFailures.
Context `{Runtime}.

Lemma shape_info_formats_list (d : gmap string pyval) (v : pyval) :
  d !! "formats" = Some v →
  YtDlp.shape_info_formats (VDict d) = iter v ≫= YtDlp.shape_formats.
Proof.
  intros Hformats. unfold YtDlp.shape_info_formats.
  rewrite (truthy_dict_lookup _ _ _ Hformats). cbn [contains getitem].
  rewrite bool_decide_eq_true_2 by eauto. by rewrite bind_Returns, Hformats.
Qed.

Lemma shape_formats_app_raises (before after : list pyval) (f : pyval)
    (xs : list YtDlp.VideoFormatInfo) (e : exn) :
  YtDlp.shape_formats before = Returns xs →
  YtDlp.shape_format f = Raises e →
  YtDlp.shape_formats (before ++ f :: after) = Raises e.
Proof.
  revert xs. induction before as [|b before IH]; intros xs Hbefore Hf; simpl.
  - by rewrite Hf.
  - simpl in Hbefore. apply bind_returns in Hbefore as (x & -> & Hbefore).
    apply bind_returns in Hbefore as (xs' & Hxs' & _).
    rewrite bind_Returns. by rewrite (IH xs' Hxs' Hf).
Qed.

Lemma endpoint_handler_not_http (prefix : string) (e : exn) :
  is_http e = false →
  YtDlp.endpoint_handler prefix e = HTTPException 500 (prefix +:+ exn_str e).
Proof. by destruct e. Qed.

Lemma find_format_first_match (bs : list (gmap string pyval)) (f : gmap string pyval)
    (after : list pyval) (format_itag : string) :
  Forall (λ b, YtDlp.has_format_id format_itag (VDict b) = false) bs →
  f !! "format_id" = Some (VStr format_itag) →
  YtDlp.find_format ((VDict <$> bs) ++ VDict f :: after) format_itag
    = Returns (VDict f).
Proof.
  intros Hbs Hf. induction Hbs as [|b bs Hb _ IH];
    cbn [fmap list_fmap app YtDlp.find_format get]; rewrite bind_Returns.
  - rewrite Hf. cbn. by rewrite String.eqb_refl.
  - unfold YtDlp.has_format_id in Hb. cbn [get] in Hb. by rewrite Hb.
Qed.

End ShapingFailures.

Section YtDlpResponses.
Context `{Runtime} `{YtDlp.YoutubeDL}.
Variable COOKIES_FILE_PATH : string.
Variable cookies_exist : bool.

Local Abbreviation opts_info := (YtDlp.ydl_opts_info COOKIES_FILE_PATH cookies_exist).
Local Abbreviation opts_download :=
  (YtDlp.ydl_opts_download COOKIES_FILE_PATH cookies_exist).
Local Abbreviation get_video_information :=
  (YtDlp.get_video_information COOKIES_FILE_PATH cookies_exist).
Local Abbreviation get_download_link :=
  (YtDlp.get_download_link COOKIES_FILE_PATH cookies_exist).

Lemma ytdlp_video_info_of_shape (url : string) (cs : list YtDlp.call)
    (d : gmap string pyval) :
  url ≠ "" →
  YtDlp.extract_info opts_info url = Returns (VDict d) →
  get_video_information url cs =
    (match YtDlp.shape_video_information (VDict d) with
     | Returns body => Returns body
     | Raises e =>
         Raises (YtDlp.endpoint_handler
                   "Внутренняя ошибка сервера при обработке вашего запроса: " e)
     end, cs ++ [YtDlp.ExtractInfo opts_info url]).
Proof.
  intros Hurl Hinfo. rewrite ytdlp_video_info_run by done.
  unfold YtDlp.get_video_information_try.
  rewrite M_bind_run, (fetch_video_info_dict _ _ _ _ _ Hinfo). unfold lift.
  by destruct (YtDlp.shape_video_information (VDict d)).
Qed.

(** X9. A 200 response of the download-link endpoint always carries
    both a URL and a filename, with the fixed message: the URL is the
    value of ['url'] in the selected format, which cannot be [None], and
    when that value is a string the response carries exactly it. *)
Theorem ytdlp_download_link_200_body
    (url itag : string) (cs cs' : list YtDlp.call) (resp : YtDlp.DownloadResponse) :
  get_download_link url itag cs = (Returns resp, cs') →
  YtDlp.message resp = "Ссылка на скачивание успешно получена." ∧
  is_Some (YtDlp.direct_download_url resp) ∧
  is_Some (YtDlp.filename resp) ∧
  ∃ info sel u,
    YtDlp.extract_info (opts_download itag) url = Returns info ∧
    YtDlp.select_format info itag = Returns (VDict sel) ∧
    sel !! "url" = Some u ∧ u ≠ VNone ∧
    (∀ s, u = VStr s → YtDlp.direct_download_url resp = Some s).
Proof.
  intros Hrun. assert (url ≠ "" ∧ itag ≠ "") as [Hurl Hitag].
  { unfold YtDlp.get_download_link in Hrun. split; intros ->; [discriminate Hrun|].
    cbn in Hrun. rewrite orb_true_r in Hrun. discriminate Hrun. }
  rewrite ytdlp_download_link_run in Hrun by done.
  destruct (YtDlp.get_download_link_try _ _ url itag cs) as [[b|e] cs1] eqn:Htry;
    [|discriminate].
  injection Hrun as -> ->. unfold YtDlp.get_download_link_try in Htry.
  apply M_bind_returns in Htry as (r & cs1 & Hblocking & Hshape).
  apply lift_returns in Hshape as [Hshape ->].
  apply get_download_link_blocking_returns in Hblocking
    as (info & sel & u & templated & name & Hinfo & Hsel & _ & _ & Hu & _ & _ &
        Hslice & -> & _).
  pose proof (shape_download_response_message _ _ Hshape) as Hmessage.
  apply shape_download_response_returns in Hshape as [Hfilename Hdirect].
  assert (u ≠ VNone) as Hnone by (intros ->; discriminate Hslice).
  split; [done|]. split; [by eapply optional_returns_some|].
  split; [by rewrite Hfilename|].
  destruct sel as [| | | | | |ds]; try discriminate Hu. cbn [getitem] in Hu.
  destruct (ds !! "url") as [u'|] eqn:Hu'; [|discriminate]. injection Hu as ->.
  exists info, ds, u. repeat split; try done.
  intros s ->. rewrite optional_str_value in Hdirect. by injection Hdirect.
Qed.

(** X10. A 200 response of the video-info endpoint carries the
    library's own data where it has them: a string title and a string
    thumbnail as they are, and as duration the [int()] of the library's
    ['duration'], so a whole number as it is and a fractional one
    truncated toward zero. *)
Theorem ytdlp_video_info_200_body
    (url : string) (cs cs' : list YtDlp.call) (body : YtDlp.VideoDetails) :
  get_video_information url cs = (Returns body, cs') →
  ∃ d, YtDlp.extract_info opts_info url = Returns (VDict d) ∧
    (∀ t, d !! "title" = Some (VStr t) → YtDlp.title body = t) ∧
    (∀ t, d !! "thumbnail" = Some (VStr t) → YtDlp.thumbnail_url body = t) ∧
    (∀ z, d !! "duration" = Some (VInt z) → YtDlp.duration body = z) ∧
    (∀ q, d !! "duration" = Some (VFloat (FFinite q)) →
          YtDlp.duration body = Z.quot (Qnum q) (Z.pos (Qden q))) ∧
    (∀ u, d !! "uploader" = Some (VStr u) → YtDlp.uploader body = Some u) ∧
    (d !! "uploader" = None → YtDlp.uploader body = None).
Proof.
  intros Hrun.
  apply ytdlp_video_info_returns in Hrun as (_ & d & Hinfo & Hshape & _).
  apply shape_video_information_returns in Hshape as (_ & _ & Hdetails).
  apply shape_details_returns in Hdetails as (Htitle & Hthumb & Hdur & Hup & _).
  exists d. split; [done|]. repeat split.
  - intros t Ht. rewrite Ht in Htitle. cbn [from_option id] in Htitle.
    unfold required in Htitle. rewrite field_str_str in Htitle. by injection Htitle.
  - intros t Ht. rewrite Ht in Hthumb. cbn [from_option id] in Hthumb.
    unfold required in Hthumb. rewrite field_str_str in Hthumb. by injection Hthumb.
  - intros z Hz. rewrite Hz in Hdur. cbn in Hdur. by injection Hdur.
  - intros q Hq. rewrite Hq in Hdur. cbn in Hdur. by injection Hdur.
  - intros u Hu. rewrite Hu in Hup. cbn [from_option id] in Hup.
    rewrite optional_str_value in Hup. by injection Hup.
  - intros Hu. rewrite Hu in Hup. cbn in Hup. by injection Hup.
Qed.

(** X11. A ['duration'] that [int()] rejects fails the whole request:
    when the formats of the library result shape well but its duration
    is present and is [None], a string that is no number, or an infinite
    or undefined float, the answer is a 500 with the endpoint's detail
    and the text of the exception, not a response without duration. *)
Theorem ytdlp_video_info_bad_duration
    (url : string) (cs : list YtDlp.call) (d : gmap string pyval)
    (ds : list (gmap string pyval)) (v : pyval) (e : exn) :
  url ≠ "" →
  YtDlp.extract_info opts_info url = Returns (VDict d) →
  d !! "formats" = Some (VList (VDict <$> ds)) →
  ds ≠ [] →
  Forall (λ f, YtDlp.well_typed_format f = true) ds →
  d !! "duration" = Some v →
  int v = Raises e →
  respond (get_video_information url cs).1 =
    HttpError 500
      ("Внутренняя ошибка сервера при обработке вашего запроса: " +:+ exn_str e).
Proof.
  intros Hurl Hinfo Hformats Hne Hds Hv Hint.
  rewrite (ytdlp_video_info_of_shape _ _ _ Hurl Hinfo). cbn [fst].
  destruct (shape_formats_placeholders ds Hds) as (xs & Hxs & Hplace).
  assert (YtDlp.shape_video_information (VDict d) = Raises e) as ->.
  { unfold YtDlp.shape_video_information.
    rewrite (shape_info_formats_list _ _ Hformats). cbn [iter].
    rewrite bind_Returns, Hxs, bind_Returns.
    destruct xs as [|x xs']; [destruct ds; [done|inversion Hplace]|].
    unfold YtDlp.shape_details. cbn [get]. rewrite !bind_Returns, Hv.
    cbn [from_option id]. by rewrite Hint. }
  rewrite endpoint_handler_not_http by (by eapply int_raises). done.
Qed.

(** X12. There are no partial results: when one entry of ['formats']
    cannot be shaped (it is not a dict, or a field of it is rejected by
    the response model) the whole request is answered 500 with the
    endpoint's detail and the text of the exception, however many
    entries before it were shaped. *)
Theorem ytdlp_video_info_bad_entry
    (url : string) (cs : list YtDlp.call) (d : gmap string pyval)
    (before after : list pyval) (f : pyval) (xs : list YtDlp.VideoFormatInfo)
    (e : exn) :
  url ≠ "" →
  YtDlp.extract_info opts_info url = Returns (VDict d) →
  d !! "formats" = Some (VList (before ++ f :: after)) →
  YtDlp.shape_formats before = Returns xs →
  YtDlp.shape_format f = Raises e →
  respond (get_video_information url cs).1 =
    HttpError 500
      ("Внутренняя ошибка сервера при обработке вашего запроса: " +:+ exn_str e).
Proof.
  intros Hurl Hinfo Hformats Hbefore Hf.
  rewrite (ytdlp_video_info_of_shape _ _ _ Hurl Hinfo). cbn [fst].
  assert (YtDlp.shape_video_information (VDict d) = Raises e) as ->.
  { unfold YtDlp.shape_video_information.
    rewrite (shape_info_formats_list _ _ Hformats). cbn [iter].
    by rewrite bind_Returns, (shape_formats_app_raises _ _ _ _ _ Hbefore Hf). }
  rewrite endpoint_handler_not_http by (by eapply shape_format_raises). done.
Qed.

(** X13. A library result whose ['formats'] is present but cannot be
    iterated, [None] above all, is answered 500 with a [TypeError] in the
    detail, whereas a result without the key is answered 404. *)
Theorem ytdlp_video_info_formats_not_iterable
    (url : string) (cs : list YtDlp.call) (d : gmap string pyval) (v : pyval) (e : exn) :
  url ≠ "" →
  YtDlp.extract_info opts_info url = Returns (VDict d) →
  d !! "formats" = Some v →
  iter v = Raises e →
  respond (get_video_information url cs).1 =
    HttpError 500
      ("Внутренняя ошибка сервера при обработке вашего запроса: " +:+
       exn_str TypeError).
Proof.
  intros Hurl Hinfo Hformats Hiter.
  rewrite (ytdlp_video_info_of_shape _ _ _ Hurl Hinfo). cbn [fst].
  assert (YtDlp.shape_video_information (VDict d) = Raises TypeError) as ->.
  { unfold YtDlp.shape_video_information.
    rewrite (shape_info_formats_list _ _ Hformats).
    rewrite (iter_raises _ _ Hiter) in Hiter. by rewrite Hiter. }
  done.
Qed.

(** X14. The selection stops at the first match.  When the entries of
    ['formats'] before an entry with the requested [format_id] are dicts
    with another [format_id], that entry is selected, whatever follows it
    in the list (later entries are not looked at, so they may even be
    malformed) and whatever the top-level result holds. *)
Theorem select_format_first_match
    (d f : gmap string pyval) (bs : list (gmap string pyval)) (after : list pyval)
    (format_itag : string) :
  d !! "formats" = Some (VList ((VDict <$> bs) ++ VDict f :: after)) →
  Forall (λ b, YtDlp.has_format_id format_itag (VDict b) = false) bs →
  f !! "format_id" = Some (VStr format_itag) →
  YtDlp.select_format (VDict d) format_itag = Returns (VDict f).
Proof.
  intros Hformats Hbs Hf. unfold YtDlp.select_format. cbn [contains getitem].
  rewrite bool_decide_eq_true_2 by eauto. rewrite bind_Returns, Hformats.
  rewrite bind_Returns. cbn [iter]. rewrite bind_Returns.
  rewrite (find_format_first_match _ _ _ _ Hbs Hf), bind_Returns.
  by rewrite (truthy_dict_lookup _ _ _ Hf).
Qed.

(** X15. A matching entry of ['formats'] that has no ['url'] hides the
    top-level result: the request fails with the 500 that wraps the
    adapter's 404 even when the top-level result has the requested
    [format_id] and a ['url'] of its own. *)
Theorem ytdlp_download_link_entry_hides_top_level
    (url itag : string) (cs : list YtDlp.call) (d f : gmap string pyval)
    (bs : list (gmap string pyval)) (after : list pyval) :
  url ≠ "" → itag ≠ "" →
  YtDlp.extract_info (opts_download itag) url = Returns (VDict d) →
  d !! "formats" = Some (VList ((VDict <$> bs) ++ VDict f :: after)) →
  Forall (λ b, YtDlp.has_format_id itag (VDict b) = false) bs →
  f !! "format_id" = Some (VStr itag) →
  f !! "url" = None →
  respond (get_download_link url itag cs).1 =
    HttpError 500
      ("Непредвиденная ошибка сервера при получении ссылки: " +:+
       exn_str (HTTPException 404 (YtDlp.detail_404_link itag))).
Proof.
  intros Hurl Hitag Hinfo Hformats Hbs Hf Hnourl.
  rewrite ytdlp_download_link_run by done. unfold YtDlp.get_download_link_try.
  rewrite M_bind_run, ytdlp_blocking_run.
  unfold YtDlp.get_download_link_blocking_try, YtDlp.call_extract_info.
  unfold_monad. cbn [fst snd]. rewrite Hinfo.
  assert (YtDlp.select_format (VDict d) itag = Returns (VDict f)) as ->.
  { unfold YtDlp.select_format. cbn [contains getitem].
    rewrite bool_decide_eq_true_2 by eauto. rewrite bind_Returns, Hformats.
    rewrite bind_Returns. cbn [iter]. rewrite bind_Returns.
    rewrite (find_format_first_match _ _ _ _ Hbs Hf), bind_Returns.
    by rewrite (truthy_dict_lookup _ _ _ Hf). }
  rewrite (truthy_dict_lookup _ _ _ Hf). cbn [contains].
  rewrite bool_decide_eq_false_2 by (rewrite Hnourl; by intros [? [=]]).
  done.
Qed.

End YtDlpResponses.

(** ** The pytube and rutube services as a whole *)

Section PytubeService.
Context `{Runtime} `{Pytube.PytubeLib}.

Lemma pytube_video_info_try_run (url : string) (cs : list string) :
  Pytube.get_video_information_try url cs =
    (Pytube.YouTube_new url ≫= Pytube.shape_video_information, cs ++ [url]).
Proof.
  unfold Pytube.get_video_information_try, Pytube.call_YouTube. unfold_monad. cbn.
  by destruct (Pytube.YouTube_new url).
Qed.

Lemma pytube_download_link_try_run (url itag : string) (cs : list string) :
  Pytube.get_download_link_try url itag cs =
    (Pytube.YouTube_new url ≫= λ yt, Pytube.shape_download_link yt itag, cs ++ [url]).
Proof.
  unfold Pytube.get_download_link_try, Pytube.call_YouTube. unfold_monad. cbn.
  by destruct (Pytube.YouTube_new url).
Qed.

(** X16. In the pytube service a request whose parameters are not
    empty builds [YouTube(url)] exactly once, and is answered either 200
    or a 500 whose detail is the endpoint's followed by the text of the
    exception; when the constructor itself raises, that exception is the
    one in the detail.  No such request is answered 404. *)
Theorem pytube_endpoints_outcomes (url itag : string) (cs : list string) :
  url ≠ "" → itag ≠ "" →
  ((Pytube.get_video_information url cs).2 = cs ++ [url] ∧
   ((∃ body, (Pytube.get_video_information url cs).1 = Returns body) ∨
    (∃ e, (Pytube.get_video_information url cs).1 =
            Raises (HTTPException 500
                      ("Ошибка сервера при обработке URL: " +:+ exn_str e)) ∧
          ∀ e', Pytube.YouTube_new url = Raises e' → e = e')))
  ∧
  ((Pytube.get_download_link url itag cs).2 = cs ++ [url] ∧
   ((∃ body, (Pytube.get_download_link url itag cs).1 = Returns body) ∨
    (∃ e, (Pytube.get_download_link url itag cs).1 =
            Raises (HTTPException 500
                      ("Ошибка сервера при получении ссылки: " +:+ exn_str e)) ∧
          ∀ e', Pytube.YouTube_new url = Raises e' → e = e'))).
Proof.
  intros Hurl Hitag. split.
  - rewrite pytube_video_info_run, pytube_video_info_try_run by done.
    destruct (Pytube.YouTube_new url) as [yt|e] eqn:Hnew; rewrite ?bind_Returns.
    + destruct (Pytube.shape_video_information yt) as [body|e]; cbn; split; eauto.
      right. exists e. split; [done|]. by intros e' [=].
    + cbn. split; [done|]. right. exists e. split; [done|]. by intros e' [= ->].
  - rewrite pytube_download_link_run, pytube_download_link_try_run by done.
    destruct (Pytube.YouTube_new url) as [yt|e] eqn:Hnew; rewrite ?bind_Returns.
    + destruct (Pytube.shape_download_link yt itag) as [body|e]; cbn; split; eauto.
      right. exists e. split; [done|]. by intros e' [=].
    + cbn. split; [done|]. right. exists e. split; [done|]. by intros e' [= ->].
Qed.

Lemma shape_streams_app_raises (before after : list Pytube.Stream.t)
    (s : Pytube.Stream.t) (xs : list Pytube.VideoFormatInfo) (e : exn) :
  Pytube.shape_streams before = Returns xs →
  Pytube.Stream.filesize s = Raises e →
  Pytube.shape_streams (before ++ s :: after) = Raises e.
Proof.
  revert xs. induction before as [|b before IH]; intros xs Hbefore Hs; simpl.
  - unfold Pytube.shape_stream. by rewrite Hs.
  - simpl in Hbefore. apply bind_returns in Hbefore as (x & -> & Hbefore).
    apply bind_returns in Hbefore as (xs' & Hxs' & _).
    rewrite bind_Returns. by rewrite (IH xs' Hxs' Hs).
Qed.

(** X17. The pytube video-info endpoint returns no partial list: when
    the size of one of the selected streams cannot be read, the request
    is answered 500 with the text of that exception, however many
    streams before it were shaped. *)
Theorem pytube_video_info_bad_stream
    (url : string) (cs : list string) (yt : Pytube.YouTube.t)
    (before after : list Pytube.Stream.t) (s : Pytube.Stream.t)
    (xs : list Pytube.VideoFormatInfo) (e : exn) :
  url ≠ "" →
  Pytube.YouTube_new url = Returns yt →
  Pytube.progressive_mp4_streams yt = Returns (before ++ s :: after) →
  Pytube.shape_streams before = Returns xs →
  Pytube.Stream.filesize s = Raises e →
  respond (Pytube.get_video_information url cs).1 =
    HttpError 500 ("Ошибка сервера при обработке URL: " +:+ exn_str e).
Proof.
  intros Hurl Hnew Hquery Hbefore Hs.
  rewrite pytube_video_info_run, pytube_video_info_try_run by done.
  rewrite Hnew, bind_Returns. unfold Pytube.shape_video_information.
  by rewrite Hquery, bind_Returns, (shape_streams_app_raises _ _ _ _ _ Hbefore Hs).
Qed.

End PytubeService.

Section RutubeService.
Context `{Rutube.RutubeLib}.

(** X18. In the rutube service the file is opened for writing before
    anything is downloaded.  So once [Rutube(video_url)] has been built,
    the earlier content of ['video.mp4'] is gone whatever happens next:
    after the request the file holds what this download wrote, and is
    empty when [get_best()] fails or finds no video.  Only when the
    constructor raises is the file left as it was. *)
Theorem rutube_file_after_request (video_url : string) (w : Rutube.world) :
  match Rutube.Rutube_new video_url with
  | Raises e =>
      Rutube.get_video_info video_url w =
        (Raises e, {| Rutube.files := Rutube.files w;
                      Rutube.calls := Rutube.calls w ++ [video_url] |})
  | Returns client =>
      Rutube.files (Rutube.get_video_info video_url w).2 !! "video.mp4" =
        Some (match client with
              | Returns (Some v) => Rutube.written v
              | _ => []
              end)
  end.
Proof.
  unfold Rutube.get_video_info, Rutube.call_Rutube, Rutube.open_wb, Rutube.write.
  unfold_monad. cbn.
  destruct (Rutube.Rutube_new video_url) as [[[v|]|e]|e]; cbn;
    rewrite ?lookup_insert_eq; try done.
  destruct (Rutube.failure v); cbn; by rewrite !lookup_insert_eq.
Qed.

(** X19. The rutube service maps no error.  When the handler raises,
    the exception is one the library raised (by the constructor, by
    [get_best()] or during the download), or the [AttributeError] of
    calling [download] on the [None] that [get_best()] returned; the
    handler itself never raises an [HTTPException]. *)
Theorem rutube_errors_escape (video_url : string) (w w' : Rutube.world) (e : exn) :
  Rutube.get_video_info video_url w = (Raises e, w') →
  Rutube.Rutube_new video_url = Raises e
  ∨ Rutube.Rutube_new video_url = Returns (Raises e)
  ∨ (Rutube.Rutube_new video_url = Returns (Returns None) ∧ e = AttributeError)
  ∨ ∃ v, Rutube.Rutube_new video_url = Returns (Returns (Some v)) ∧
         Rutube.failure v = Some e.
Proof.
  unfold Rutube.get_video_info, Rutube.call_Rutube, Rutube.open_wb, Rutube.write.
  unfold_monad. cbn.
  destruct (Rutube.Rutube_new video_url) as [[[v|]|e']|e']; cbn.
  - destruct (Rutube.failure v) as [e'|] eqn:Hfail; intros [= <- _]; eauto 6.
  - intros [= <- _]. auto.
  - intros [= <- _]. auto.
  - intros [= <- _]. auto.
Qed.

End RutubeService.

Section PytubeLink.
Context `{Runtime} `{Pytube.PytubeLib}.

Lemma replace_spaces_no_space (s : string) :
  substring_of " " (replace_spaces s) = false.
Proof.
  induction s as [|a s IH]; [done|]. cbn [replace_spaces substring_of is_prefix].
  rewrite IH, orb_false_r, andb_true_r.
  destruct (Ascii.eqb_spec a " "%char) as [->|Ha]; [done|].
  by apply Ascii.eqb_neq.
Qed.

(** X20. A 200 response of the pytube download-link endpoint carries
    the URL of the very stream [get_by_itag] returned for [int(itag)],
    and a filename made of the title with every space replaced by an
    underscore, an underscore, a quality, a dot and the stream's subtype.
    The quality is the resolution when the stream has a non-empty one,
    else the audio bitrate, and the text ["None"] when it has neither. *)
Theorem pytube_download_link_200_body
    (url itag : string) (cs cs' : list string) (link : Pytube.DownloadLink) :
  Pytube.get_download_link url itag cs = (Returns link, cs') →
  ∃ yt all i stream title quality,
    Pytube.YouTube_new url = Returns yt ∧
    Pytube.YouTube.streams yt = Returns all ∧
    int_of_str itag = Some i ∧
    Pytube.get_by_itag all i = Returns (Some stream) ∧
    Pytube.YouTube.title yt = Returns title ∧
    Pytube.download_url link = Pytube.Stream.url stream ∧
    Pytube.filename link =
      replace_spaces title +:+ "_" +:+ quality +:+ "." +:+ Pytube.Stream.subtype stream ∧
    substring_of " " (replace_spaces title) = false ∧
    (∀ r, Pytube.Stream.resolution stream = Some r → r ≠ "" → quality = r) ∧
    (Pytube.Stream.resolution stream = None ∨ Pytube.Stream.resolution stream = Some "" →
     quality = match Pytube.Stream.abr stream with Some a => a | None => "None" end).
Proof.
  intros Hrun. assert (url ≠ "" ∧ itag ≠ "") as [Hurl Hitag].
  { unfold Pytube.get_download_link in Hrun. split; intros ->; [discriminate Hrun|].
    cbn in Hrun. rewrite orb_true_r in Hrun. discriminate Hrun. }
  rewrite pytube_download_link_run, pytube_download_link_try_run in Hrun by done.
  destruct (Pytube.YouTube_new url) as [yt|e]; [|discriminate].
  rewrite bind_Returns in Hrun.
  destruct (Pytube.shape_download_link yt itag) as [link'|e] eqn:Hshape; [|discriminate].
  injection Hrun as -> _. unfold Pytube.shape_download_link in Hshape.
  apply bind_returns in Hshape as (all & Hall & Hshape).
  apply bind_returns in Hshape as (i & Hint & Hshape).
  apply bind_returns in Hshape as (found & Hfound & Hshape).
  destruct found as [stream|]; [|discriminate].
  apply bind_returns in Hshape as (title & Htitle & Hshape). injection Hshape as <-.
  cbn [int] in Hint. destruct (int_of_str itag) as [i'|]; [|discriminate].
  injection Hint as ->.
  exists yt, all, i, stream, title,
    (Pytube.format_optional (Pytube.resolution_or_abr stream)).
  repeat split; try done.
  - apply replace_spaces_no_space.
  - intros r Hr Hne. unfold Pytube.resolution_or_abr. rewrite Hr.
    by rewrite (truthy_str_nonempty _ Hne).
  - intros [Hr|Hr]; unfold Pytube.resolution_or_abr; rewrite Hr; cbn;
      by destruct (Pytube.Stream.abr stream).
Qed.

End PytubeLink.

(** ** The further theorems at work on the sample libraries *)

Section MoreWitnesses.

Local Abbreviation video_info :=
  (@YtDlp.get_video_information Sample.strict_runtime MoreSamples.ydl "cookies.txt" false).
Local Abbreviation download_link :=
  (@YtDlp.get_download_link Sample.strict_runtime MoreSamples.ydl "cookies.txt" false).
Local Abbreviation shape_format := (@YtDlp.shape_format Sample.strict_runtime).
Local Abbreviation pytube_video_info :=
  (@Pytube.get_video_information Sample.strict_runtime MoreSamples.pytube).
Local Abbreviation pytube_download_link :=
  (@Pytube.get_download_link Sample.strict_runtime MoreSamples.pytube).

Lemma ytdlp_download_link_calls_witness :
  (download_link "" "22" []).2 = [] ∧
  ∃ info, (download_link "https://youtu.be/talk" "22" []).2 =
    [YtDlp.ExtractInfo (YtDlp.ydl_opts_download "cookies.txt" false "22")
       "https://youtu.be/talk";
     YtDlp.PrepareFilename (YtDlp.ydl_opts_download "cookies.txt" false "22") info].
Proof.
  destruct (@ytdlp_download_link_calls Sample.strict_runtime MoreSamples.ydl
              "cookies.txt" false "" "22" []) as [Hempty _].
  destruct (@ytdlp_download_link_calls Sample.strict_runtime MoreSamples.ydl
              "cookies.txt" false "https://youtu.be/talk" "22" []) as [_ Hcalls].
  split; [apply Hempty; by left|].
  assert ("https://youtu.be/talk" ≠ "") as Hurl by discriminate.
  assert ("22" ≠ "") as Hitag by discriminate.
  destruct (Hcalls Hurl Hitag) as [_ [Hone|(info & _ & Htwo)]].
  - exfalso. vm_compute in Hone. discriminate Hone.
  - exists info. exact Htwo.
Defined.

Lemma ytdlp_library_error_details_witness :
  respond (video_info "https://youtu.be/gone" []).1 =
    HttpError 500 "Ошибка при получении информации от YouTube: Video unavailable"
  ∧ respond (download_link "https://youtu.be/gone" "22" []).1 =
    HttpError 500 "Ошибка yt-dlp при получении ссылки на скачивание: Video unavailable".
Proof.
  destruct (@ytdlp_library_error_details Sample.strict_runtime MoreSamples.ydl
              "cookies.txt" false "https://youtu.be/gone" "22" []
              (DownloadError "Video unavailable")) as [Hinfo Hlink];
    [discriminate | discriminate |].
  split; [apply Hinfo | apply Hlink]; reflexivity.
Defined.

Lemma shape_format_resolution_witness :
  ∃ x, shape_format (VDict MoreSamples.entry_hd) = Returns x ∧
       YtDlp.resolution x = Some "1280x720".
Proof.
  destruct (shape_format (VDict MoreSamples.entry_hd)) as [x|e] eqn:Hshape;
    [|vm_compute in Hshape; discriminate Hshape].
  exists x. split; [reflexivity|].
  destruct (@shape_format_resolution Sample.strict_runtime _ _ Hshape)
    as (_ & Hbuilt & _); [reflexivity|].
  apply (Hbuilt (VInt 1280) (VInt 720)); reflexivity.
Defined.

Lemma shape_format_filesize_witness :
  ∃ x, shape_format (VDict MoreSamples.entry_hd) = Returns x ∧
       YtDlp.filesize x = Some 5000.
Proof.
  destruct (shape_format (VDict MoreSamples.entry_hd)) as [x|e] eqn:Hshape;
    [|vm_compute in Hshape; discriminate Hshape].
  exists x. split; [reflexivity|].
  destruct (@shape_format_filesize Sample.strict_runtime _ _ Hshape) as [_ Happrox].
  destruct Happrox as [Happrox _]; [right; right; reflexivity|].
  apply Happrox. reflexivity.
Defined.

Lemma ytdlp_download_link_200_body_witness :
  ∃ resp, (download_link "https://youtu.be/talk" "22" []).1 = Returns resp ∧
          YtDlp.direct_download_url resp = Some "https://cdn.example/22" ∧
          is_Some (YtDlp.filename resp).
Proof.
  destruct (download_link "https://youtu.be/talk" "22" []) as [o cs'] eqn:Hrun.
  assert (∃ resp, o = Returns resp) as [resp ->].
  { apply (f_equal fst) in Hrun. vm_compute in Hrun. subst o. eexists. reflexivity. }
  destruct (@ytdlp_download_link_200_body Sample.strict_runtime MoreSamples.ydl
              _ _ _ _ _ _ _ Hrun)
    as (_ & _ & Hfilename & info & sel & u & Hinfo & Hsel & Hu & _ & Hstr).
  exists resp. split; [reflexivity|]. split; [|exact Hfilename].
  apply Hstr.
  change (Returns (VDict MoreSamples.info_talk) = Returns info) in Hinfo.
  injection Hinfo as <-.
  assert (YtDlp.select_format (VDict MoreSamples.info_talk) "22"
          = Returns (VDict MoreSamples.entry_hd)) as Hentry by (vm_compute; reflexivity).
  rewrite Hentry in Hsel. injection Hsel as <-.
  assert (MoreSamples.entry_hd !! "url" = Some (VStr "https://cdn.example/22")) as Hurl
    by (vm_compute; reflexivity).
  rewrite Hurl in Hu. injection Hu as <-. reflexivity.
Defined.

Lemma ytdlp_video_info_200_body_witness :
  ∃ body, (video_info "https://youtu.be/talk" []).1 = Returns body ∧
          YtDlp.title body = "Talk" ∧ YtDlp.duration body = 12 ∧
          YtDlp.uploader body = Some "Ann".
Proof.
  destruct (video_info "https://youtu.be/talk" []) as [o cs'] eqn:Hrun.
  assert (∃ body, o = Returns body) as [body ->].
  { apply (f_equal fst) in Hrun. vm_compute in Hrun. subst o. eexists. reflexivity. }
  destruct (@ytdlp_video_info_200_body Sample.strict_runtime MoreSamples.ydl
              _ _ _ _ _ _ Hrun)
    as (d & Hinfo & Htitle & _ & _ & Hdur & Hup & _).
  change (Returns (VDict MoreSamples.info_talk) = Returns (VDict d)) in Hinfo.
  injection Hinfo as <-.
  exists body. split; [reflexivity|]. split; [|split].
  - apply Htitle. vm_compute. reflexivity.
  - apply (Hdur (25 # 2)). vm_compute. reflexivity.
  - apply Hup. vm_compute. reflexivity.
Defined.

Lemma ytdlp_video_info_bad_duration_witness :
  respond (video_info "https://youtu.be/bad-duration" []).1 =
    HttpError 500 "Внутренняя ошибка сервера при обработке вашего запроса: TypeError".
Proof.
  apply (@ytdlp_video_info_bad_duration Sample.strict_runtime MoreSamples.ydl
           "cookies.txt" false "https://youtu.be/bad-duration" []
           MoreSamples.info_bad_duration [MoreSamples.entry_hd] VNone TypeError);
    [discriminate | reflexivity | reflexivity | discriminate
    | repeat constructor | reflexivity | reflexivity].
Defined.

Lemma ytdlp_video_info_bad_entry_witness :
  respond (video_info "https://youtu.be/bad-entry" []).1 =
    HttpError 500
      "Внутренняя ошибка сервера при обработке вашего запроса: AttributeError".
Proof.
  destruct (shape_format (VDict MoreSamples.entry_hd)) as [x|e] eqn:Hshape;
    [|vm_compute in Hshape; discriminate Hshape].
  apply (@ytdlp_video_info_bad_entry Sample.strict_runtime MoreSamples.ydl
           "cookies.txt" false "https://youtu.be/bad-entry" []
           MoreSamples.info_bad_entry [VDict MoreSamples.entry_hd]
           [VDict MoreSamples.entry_hd] VNone [x] AttributeError);
    [discriminate | reflexivity | reflexivity | | reflexivity].
  cbn [YtDlp.shape_formats]. rewrite Hshape. reflexivity.
Defined.

Lemma ytdlp_video_info_formats_not_iterable_witness :
  respond (video_info "https://youtu.be/null-formats" []).1 =
    HttpError 500 "Внутренняя ошибка сервера при обработке вашего запроса: TypeError".
Proof.
  apply (@ytdlp_video_info_formats_not_iterable Sample.strict_runtime MoreSamples.ydl
           "cookies.txt" false "https://youtu.be/null-formats" []
           MoreSamples.info_null_formats VNone TypeError);
    [discriminate | reflexivity | reflexivity | reflexivity].
Defined.

Lemma select_format_first_match_witness :
  YtDlp.select_format (VDict MoreSamples.info_hidden) "18"
    = Returns (VDict MoreSamples.entry_no_url).
Proof.
  apply (select_format_first_match MoreSamples.info_hidden MoreSamples.entry_no_url
           [MoreSamples.entry_hd] [VNone] "18");
    [reflexivity | repeat constructor | reflexivity].
Defined.

Lemma ytdlp_download_link_entry_hides_top_level_witness :
  respond (download_link "https://youtu.be/hidden" "18" []).1 =
    HttpError 500
      ("Непредвиденная ошибка сервера при получении ссылки: " +:+
       exn_str (Runtime := Sample.strict_runtime)
         (HTTPException 404 (YtDlp.detail_404_link "18"))).
Proof.
  apply (@ytdlp_download_link_entry_hides_top_level Sample.strict_runtime
           MoreSamples.ydl "cookies.txt" false "https://youtu.be/hidden" "18" []
           MoreSamples.info_hidden MoreSamples.entry_no_url [MoreSamples.entry_hd]
           [VNone]);
    [discriminate | discriminate | reflexivity | reflexivity | repeat constructor
    | reflexivity | reflexivity].
Defined.

Lemma pytube_endpoints_outcomes_witness :
  (pytube_video_info "https://youtu.be/nowhere" []).2 = ["https://youtu.be/nowhere"] ∧
  (pytube_video_info "https://youtu.be/nowhere" []).1 =
    Raises (HTTPException 500
      "Ошибка сервера при обработке URL: regex_search: could not find match").
Proof.
  destruct (@pytube_endpoints_outcomes Sample.strict_runtime MoreSamples.pytube
              "https://youtu.be/nowhere" "22" [])
    as [[Hcalls Hout] _]; [discriminate | discriminate |].
  split; [exact Hcalls|].
  destruct Hout as [[body Hbody]|(e & He & Hctor)].
  - exfalso. vm_compute in Hbody. discriminate Hbody.
  - rewrite He.
    rewrite (Hctor (LibraryError "regex_search: could not find match") eq_refl).
    reflexivity.
Defined.

Lemma pytube_video_info_bad_stream_witness :
  respond (pytube_video_info "https://youtu.be/broken" []).1 =
    HttpError 500 "Ошибка сервера при обработке URL: HTTP Error 403: Forbidden".
Proof.
  apply (@pytube_video_info_bad_stream Sample.strict_runtime MoreSamples.pytube
           "https://youtu.be/broken" [] MoreSamples.yt_broken
           [] [Sample.stream_18] MoreSamples.stream_broken []
           (LibraryError "HTTP Error 403: Forbidden"));
    [discriminate | reflexivity | reflexivity | reflexivity | reflexivity].
Defined.

Lemma pytube_download_link_200_body_witness :
  ∃ link, (pytube_download_link "https://youtu.be/clip" "140" []).1 = Returns link ∧
          Pytube.download_url link = "https://cdn.example/140" ∧
          Pytube.filename link = "My_clip_128kbps.mp4".
Proof.
  destruct (pytube_download_link "https://youtu.be/clip" "140" []) as [o cs'] eqn:Hrun.
  assert (∃ link, o = Returns link) as [link ->].
  { apply (f_equal fst) in Hrun. vm_compute in Hrun. subst o. eexists. reflexivity. }
  destruct (@pytube_download_link_200_body Sample.strict_runtime MoreSamples.pytube
              _ _ _ _ _ Hrun)
    as (yt & all & i & stream & title & quality & Hnew & Hall & Hint & Hget & Htitle &
        Hurl & Hname & _ & _ & Hq).
  vm_compute in Hnew. injection Hnew as <-. vm_compute in Hall. injection Hall as <-.
  vm_compute in Hint. injection Hint as <-.
  vm_compute in Hget. injection Hget as <-.
  vm_compute in Htitle. injection Htitle as <-.
  exists link. split; [reflexivity|]. split; [exact Hurl|].
  rewrite Hname, Hq by (left; reflexivity). reflexivity.
Defined.

Lemma rutube_errors_escape_witness :
  Rutube.Rutube_new (RutubeLib := Sample.sample_rutube) ""
    = Raises (LibraryError "Invalid video url").
Proof.
  destruct (@rutube_errors_escape Sample.sample_rutube "" Sample.empty_world
              {| Rutube.files := ∅; Rutube.calls := [""] |}
              (LibraryError "Invalid video url") eq_refl)
    as [Hctor|[Hbest|[[Hnone _]|(v & Hv & _)]]];
    [exact Hctor | discriminate Hbest | discriminate Hnone | discriminate Hv].
Defined.

End MoreWitnesses.

